(** * The observation script [lab_3_data_script.py] as a transition system

    The script runs five threads over one shared state: the main thread
    (user input, thread start, the duration wait and [terminate_flag.set()]),
    [point_telescope], [collect_spectrometer_data], [collect_sdr_data] and
    [save_data_periodically].  The shared state is [terminate_flag],
    [data_lock], [collected_data] and the file [DATA_FILE].

    Every thread is a program counter with its local variables; one step of a
    thread is one statement (or one critical section entry) of the source.
    What the outside world supplies to a step (the result of a hardware call,
    a raised exception, the UTC string, the outcome of the file write) is the
    step's [supply]; the scheduler's choice together with it is a [label].
    The model is executable.

    A Python float is a rational, an infinity or nan ([pyfloat]); what
    [float] returns for a duration or an angle can be any of them.  Clock
    readings and Julian dates are finite, the wall clock never runs
    backwards, and the model starts after the module-level initialisation
    of lines 11-23. *)

From Stdlib Require Import List String Ascii ZArith QArith Bool Lia Lqa.
From Stdlib Require Import DecimalZ DecimalPos.
Import ListNotations.

Set Implicit Arguments.
Set Warnings "-register-all".

(** ** Python values *)

(** The values that travel through the buffer.  [PyObject] stands for an
    object the model does not look into (a numpy array, say). *)
(** A Python float: a finite number, taken as a rational, or one of
    [inf], [-inf] and [nan]. *)
Inductive pyfloat := Fin (q : Q) | PosInf | NegInf | NaN.

Inductive pyval : Type :=
| PyNone
| PyBool (b : bool)
| PyInt (z : Z)
| PyFloat (x : pyfloat)
| PyStr (s : string)
| PyList (l : list pyval)
| PyDict (kvs : list (string * pyval))
| PyObject (n : nat).

(** A dict with string keys, in insertion order. *)
Definition dict := list (string * pyval).

(** [k in d] *)
Definition has_key (k : string) (d : dict) : bool :=
  existsb (fun kv => String.eqb k (fst kv)) d.

(** [d[k]], read only where [k in d] holds. *)
Fixpoint getitem (k : string) (d : dict) : pyval :=
  match d with
  | [] => PyNone
  | (k', v) :: d' => if String.eqb k k' then v else getitem k d'
  end.

(** The same rational, numerator and denominator. *)
Definition Q_same (a b : Q) : bool :=
  Z.eqb (Qnum a) (Qnum b) && Pos.eqb (Qden a) (Qden b).

(** The same float: the same rational, the same infinity, or [nan] both. *)
Definition float_same (a b : pyfloat) : bool :=
  match a, b with
  | Fin x, Fin y => Q_same x y
  | PosInf, PosInf | NegInf, NegInf | NaN, NaN => true
  | _, _ => false
  end.

(** The same value, constructor by constructor. *)
Fixpoint pyval_eqb (a b : pyval) {struct a} : bool :=
  match a, b with
  | PyNone, PyNone => true
  | PyBool x, PyBool y => Bool.eqb x y
  | PyInt x, PyInt y => Z.eqb x y
  | PyFloat x, PyFloat y => float_same x y
  | PyStr x, PyStr y => String.eqb x y
  | PyList xs, PyList ys =>
      (fix all2 (xs ys : list pyval) {struct xs} : bool :=
         match xs, ys with
         | [], [] => true
         | x :: xs', y :: ys' => pyval_eqb x y && all2 xs' ys'
         | _, _ => false
         end) xs ys
  | PyDict xs, PyDict ys =>
      (fix all2 (xs ys : list (string * pyval)) {struct xs} : bool :=
         match xs, ys with
         | [], [] => true
         | (k, x) :: xs', (k', y) :: ys' =>
             String.eqb k k' && pyval_eqb x y && all2 xs' ys'
         | _, _ => false
         end) xs ys
  | PyObject x, PyObject y => Nat.eqb x y
  | _, _ => false
  end.

(** The message of a raised exception of class [Exception]: what the
    [except Exception] clauses of the script catch. *)
Definition exn := string.

Inductive res (A : Type) : Type :=
| Ok (a : A)
| Raise (e : exn).
Arguments Ok {A} a.
Arguments Raise {A} e.

(** [a < b] on rationals, as a boolean. *)
Definition Qltb (a b : Q) : bool :=
  match (a ?= b)%Q with Lt => true | _ => false end.

(** [e < d] and [d <= e] as Python compares floats, for a finite [e]:
    every comparison with [nan] is false. *)
Definition lt_float (e : Q) (d : pyfloat) : bool :=
  match d with
  | Fin q => Qltb e q
  | PosInf => true
  | NegInf | NaN => false
  end.

Definition float_le (d : pyfloat) (e : Q) : bool :=
  match d with
  | Fin q => Qle_bool q e
  | NegInf => true
  | PosInf | NaN => false
  end.

(** ** Threads, messages and events *)

Inductive tid := Main | Telescope | Spectrometer | Sdr | Saver.

(** The lines the script prints. *)
Inductive message :=
| MsgPointed (alt az : pyfloat)
| MsgTelescopeError (e : exn)
| MsgSpecFinished
| MsgSpecError (e : exn)
| MsgSdrFinished
| MsgSdrError (e : exn)
| MsgSaved
| MsgSaveError (e : exn)
| MsgSunPosition (alt az : pyfloat)
| MsgInputError (e : exn)
| MsgDurationReached
| MsgTerminating
| MsgUnexpected (e : exn)
| MsgCompleted.

(** The prompts of the input section, lines 82-105. *)
Inductive prompt :=
| AskSun | AskCoords | AskRa | AskDec | AskAltitude | AskAzimuth
| AskNsamples | AskNblocks | AskDuration.

(** What a step does that is visible outside its thread. *)
Inductive event :=
| EvPoint (alt az : pyfloat)                 (* interf.point(alt, az) *)
| EvReadData (prev_cnt : pyval) (r : res dict)
                                   (* snap.read_data(prev_cnt), its outcome *)
| EvSdrNew (r : res unit)                    (* SDR(), its outcome *)
| EvCapture (nsamples nblocks : Z) (r : res pyval)
                                   (* sdr.capture_data(...), its outcome *)
| EvAppend (r : pyval)                       (* collected_data.append(r) *)
| EvSave                                     (* open(DATA_FILE, "w") + json.dump *)
| EvSleep (secs : Q)                         (* time.sleep(secs) *)
| EvPrint (m : message)
| EvSetFlag                          (* terminate_flag.set() sets the flag *)
| EvStart (t : tid)                          (* t.start() *)
| EvPrompt (p : prompt) (answer : option string) (* input(...) *)
| EvJulianDate                               (* ugradio.timing.julian_date() *)
| EvSunpos (jd : Q)                          (* sunpos(jd) *)
| EvGetAltaz (ra dec : pyfloat) (jd lat lon alt : Q) (* get_altaz(...) *)
| EvExit.                                    (* exit() *)

(** A hardware call: pointing, spectrometer read, SDR construction, capture. *)
Definition is_hw (e : event) : bool :=
  match e with
  | EvPoint _ _ | EvReadData _ _ | EvSdrNew _ | EvCapture _ _ _ => true
  | _ => false
  end.

Definition is_append (e : event) : bool :=
  match e with EvAppend _ => true | _ => false end.

Definition is_save (e : event) : bool :=
  match e with EvSave => true | _ => false end.

Definition is_start (e : event) : bool :=
  match e with EvStart _ => true | _ => false end.

Definition tid_eqb (a b : tid) : bool :=
  match a, b with
  | Main, Main | Telescope, Telescope | Spectrometer, Spectrometer
  | Sdr, Sdr | Saver, Saver => true
  | _, _ => false
  end.

(** ** The shared state *)

Record world := World {
  terminate_flag : bool;                       (* terminate_flag *)
  data_lock : option tid;                 (* data_lock and its holder *)
  collected_data : list pyval;
  DATA_FILE : option string;         (* what the session has written to
                                        DATA_FILE; None: nothing yet *)
  clock : Q;                         (* time.time() *)
  trace : list (tid * event)         (* everything done so far, oldest first *)
}.

Definition emit (t : tid) (es : list event) (w : world) : world :=
  World (terminate_flag w) (data_lock w) (collected_data w) (DATA_FILE w) (clock w)
        (trace w ++ map (pair t) es).

Definition set_flag (w : world) : world :=
  World true (data_lock w) (collected_data w) (DATA_FILE w) (clock w) (trace w).

Definition set_lock (o : option tid) (w : world) : world :=
  World (terminate_flag w) o (collected_data w) (DATA_FILE w) (clock w) (trace w).

Definition append_data (r : pyval) (w : world) : world :=
  World (terminate_flag w) (data_lock w) (collected_data w ++ [r]) (DATA_FILE w) (clock w)
        (trace w).

Definition set_file (f : option string) (w : world) : world :=
  World (terminate_flag w) (data_lock w) (collected_data w) f (clock w) (trace w).

Definition advance (d : Q) (w : world) : world :=
  World (terminate_flag w) (data_lock w) (collected_data w) (DATA_FILE w) (clock w + d)%Q
        (trace w).

(** The events of one thread, oldest first. *)
Definition events_of (t : tid) (tr : list (tid * event)) : list event :=
  map snd (filter (fun te => tid_eqb t (fst te)) tr).

(** ** What the environment supplies to a step

    A hardware call returns or raises.  [snap.read_data] returns a dict,
    [sdr.capture_data] any value, [ugradio.timing.utc()] a string; the
    clock, [time.sleep] and [print] do not raise. *)

Inductive supply :=
| Plain                              (* nothing: an internal statement *)
| Returns                            (* the call returned *)
| ReturnsDict (d : dict)             (* snap.read_data returned d *)
| ReturnsVal (v : pyval)             (* sdr.capture_data returned v *)
| Raises (e : exn)                   (* the call raised e *)
| Utc (ts : string)                  (* ugradio.timing.utc() returned ts *)
| Written                            (* open and json.dump both went through *)
| OpenFails (e : exn)                (* open(DATA_FILE, "w") raised e *)
| DumpFails (partial : string) (e : exn). (* json.dump raised e after writing partial *)

(** ** point_telescope, lines 26-34 *)

Inductive tel_pc := TelCheck | TelPoint | TelSleep | TelDone.

Record tel_st := TelSt {
  tel_at : tel_pc;
  target_alt : pyfloat;
  target_az : pyfloat
}.

Definition tel_goto (pc : tel_pc) (st : tel_st) : tel_st :=
  TelSt pc (target_alt st) (target_az st).

Definition point_telescope (i : supply) (st : tel_st) (w : world)
  : option (tel_st * world) :=
  match tel_at st, i with
  | TelCheck, Plain =>
      if terminate_flag w then Some (tel_goto TelDone st, w)
      else Some (tel_goto TelPoint st, w)
  | TelPoint, Returns =>
      Some (tel_goto TelSleep st,
            emit Telescope
              [EvPoint (target_alt st) (target_az st);
               EvPrint (MsgPointed (target_alt st) (target_az st))] w)
  | TelPoint, Raises e =>
      Some (tel_goto TelDone st,
            emit Telescope
              [EvPoint (target_alt st) (target_az st);
               EvPrint (MsgTelescopeError e)] w)
  | TelSleep, Plain =>
      Some (tel_goto TelCheck st, emit Telescope [EvSleep 5] w)
  | _, _ => None
  end.

(** ** collect_spectrometer_data, lines 37-51 *)

Inductive spec_pc :=
| SpInit | SpCheck | SpRead
| SpLock (data : dict) | SpAppend (data : dict)
| SpSleep | SpDone.

Record spec_st := SpecSt {
  sp_at : spec_pc;
  sp_duration : pyfloat;
  sp_prev_cnt : pyval;
  sp_start_time : Q
}.

Definition sp_goto (pc : spec_pc) (st : spec_st) : spec_st :=
  SpecSt pc (sp_duration st) (sp_prev_cnt st) (sp_start_time st).

(** The record of line 47. *)
Definition spectra_record (ts : string) (data : dict) : pyval :=
  PyDict [("time"%string, PyStr ts); ("spectra"%string, PyDict data)].

Definition collect_spectrometer_data (i : supply) (st : spec_st) (w : world)
  : option (spec_st * world) :=
  match sp_at st, i with
  | SpInit, Plain =>
      Some (SpecSt SpCheck (sp_duration st) PyNone (clock w), w)
  | SpCheck, Plain =>
      if lt_float (clock w - sp_start_time st) (sp_duration st)
         && negb (terminate_flag w)
      then Some (sp_goto SpRead st, w)
      else Some (sp_goto SpDone st,
                 emit Spectrometer [EvPrint MsgSpecFinished] w)
  | SpRead, ReturnsDict data =>
      let w' := emit Spectrometer [EvReadData (sp_prev_cnt st) (Ok data)] w in
      if has_key "acc_cnt" data
      then Some (SpecSt (SpLock data) (sp_duration st)
                        (getitem "acc_cnt" data) (sp_start_time st), w')
      else Some (sp_goto SpSleep st, w')
  | SpRead, Raises e =>
      Some (sp_goto SpDone st,
            emit Spectrometer
              [EvReadData (sp_prev_cnt st) (Raise e);
               EvPrint (MsgSpecError e)] w)
  | SpLock data, Plain =>
      match data_lock w with
      | None => Some (sp_goto (SpAppend data) st,
                      set_lock (Some Spectrometer) w)
      | Some _ => None
      end
  | SpAppend data, Utc ts =>
      let r := spectra_record ts data in
      Some (sp_goto SpSleep st,
            set_lock None (emit Spectrometer [EvAppend r] (append_data r w)))
  | SpSleep, Plain =>
      Some (sp_goto SpCheck st, emit Spectrometer [EvSleep 1] w)
  | _, _ => None
  end.

(** ** collect_sdr_data, lines 53-65 *)

Inductive sdr_pc :=
| SdNew | SdInit | SdCheck | SdCapture
| SdLock (sdr_data : pyval) | SdAppend (sdr_data : pyval)
| SdSleep | SdDone.

Record sdr_st := SdrSt {
  sd_at : sdr_pc;
  sd_nsamples : Z;
  sd_nblocks : Z;
  sd_duration : pyfloat;
  sd_start_time : Q
}.

Definition sd_goto (pc : sdr_pc) (st : sdr_st) : sdr_st :=
  SdrSt pc (sd_nsamples st) (sd_nblocks st) (sd_duration st)
        (sd_start_time st).

(** The record of line 61. *)
Definition sdr_record (ts : string) (sdr_data : pyval) : pyval :=
  PyDict [("time"%string, PyStr ts); ("sdr"%string, sdr_data)].

Definition collect_sdr_data (i : supply) (st : sdr_st) (w : world)
  : option (sdr_st * world) :=
  match sd_at st, i with
  | SdNew, Returns =>
      Some (sd_goto SdInit st, emit Sdr [EvSdrNew (Ok tt)] w)
  | SdNew, Raises e =>
      Some (sd_goto SdDone st,
            emit Sdr [EvSdrNew (Raise e); EvPrint (MsgSdrError e)] w)
  | SdInit, Plain =>
      Some (SdrSt SdCheck (sd_nsamples st) (sd_nblocks st) (sd_duration st)
                  (clock w), w)
  | SdCheck, Plain =>
      if lt_float (clock w - sd_start_time st) (sd_duration st)
         && negb (terminate_flag w)
      then Some (sd_goto SdCapture st, w)
      else Some (sd_goto SdDone st, emit Sdr [EvPrint MsgSdrFinished] w)
  | SdCapture, ReturnsVal v =>
      Some (sd_goto (SdLock v) st,
            emit Sdr [EvCapture (sd_nsamples st) (sd_nblocks st) (Ok v)] w)
  | SdCapture, Raises e =>
      Some (sd_goto SdDone st,
            emit Sdr [EvCapture (sd_nsamples st) (sd_nblocks st) (Raise e);
                      EvPrint (MsgSdrError e)] w)
  | SdLock v, Plain =>
      match data_lock w with
      | None => Some (sd_goto (SdAppend v) st, set_lock (Some Sdr) w)
      | Some _ => None
      end
  | SdAppend v, Utc ts =>
      let r := sdr_record ts v in
      Some (sd_goto SdSleep st,
            set_lock None (emit Sdr [EvAppend r] (append_data r w)))
  | SdSleep, Plain =>
      Some (sd_goto SdCheck st, emit Sdr [EvSleep 1] w)
  | _, _ => None
  end.

(** ** The external collaborators

    [json.dumps(_, indent=4)], [float] and [int] are Python's own;
    [sunpos] and [get_altaz] come from the module [coord], the clock and the
    Julian date from [time] and [ugradio.timing]. *)

Record params := Params {
  p_target_alt : pyfloat;
  p_target_az : pyfloat;
  p_nsamples : Z;
  p_nblocks : Z;
  p_duration : pyfloat
}.

Record collaborators := Collaborators {
  json_dumps : pyval -> option string;   (* None: not JSON serializable *)
  py_float : string -> res pyfloat;
  py_int : string -> res Z;
  julian_date : Q;
  time_time : Q;                         (* the clock while input is read *)
  sunpos : Q -> res (pyfloat * pyfloat);
  get_altaz : pyfloat -> pyfloat -> Q -> Q -> Q -> Q
              -> res (pyfloat * pyfloat)
}.

(** ** save_data_periodically, lines 68-78 *)

Inductive save_pc := SvCheck | SvLock | SvWrite | SvSleep | SvDone.

Definition save_data_periodically (C : collaborators) (i : supply)
    (pc : save_pc) (w : world) : option (save_pc * world) :=
  match pc, i with
  | SvCheck, Plain =>
      if terminate_flag w then Some (SvDone, w) else Some (SvLock, w)
  | SvLock, Plain =>
      match data_lock w with
      | None => Some (SvWrite, set_lock (Some Saver) w)
      | Some _ => None
      end
  | SvWrite, Written =>
      match json_dumps C (PyList (collected_data w)) with
      | Some text =>
          Some (SvSleep,
                emit Saver [EvSave; EvPrint MsgSaved]
                  (set_lock None (set_file (Some text) w)))
      | None => None
      end
  | SvWrite, OpenFails e =>
      Some (SvDone,
            emit Saver [EvSave; EvPrint (MsgSaveError e)] (set_lock None w))
  | SvWrite, DumpFails partial e =>
      Some (SvDone,
            emit Saver [EvSave; EvPrint (MsgSaveError e)]
              (set_lock None (set_file (Some partial) w)))
  | SvSleep, Plain =>
      Some (SvCheck, emit Saver [EvSleep 10] w)
  | _, _ => None
  end.

(** ** The main thread, lines 112-135

    A KeyboardInterrupt or another exception in the main thread is a step
    of its own where the script handles it, inside the [try] of lines
    122-133.  That [try] is left only after [terminate_flag.set()] has
    returned: an interrupt that arrives while the flag is already set but
    the [try] not yet left still runs the handler, which calls [set()]
    again.  Anywhere else (at a prompt, while the threads are started, in a
    handler, at line 135) a KeyboardInterrupt is not caught and ends the
    process with a traceback: it cuts a session short and is not a step of
    the model. *)

Inductive main_pc :=
| MnStart (p : params) (k : nat)      (* the for loop of line 117 *)
| MnInit (duration : pyfloat)         (* line 123 *)
| MnCheck (duration : pyfloat) (start_time : Q)   (* line 124 *)
| MnSleep (duration : pyfloat) (start_time : Q)   (* line 125 *)
| MnSet                               (* line 127, before set() *)
| MnLeave                             (* line 127, the flag is set *)
| MnFinal                             (* line 135 *)
| MnExit.                             (* the process is gone *)

Record sys := Sys {
  shared : world;
  mn : main_pc;
  tel : option tel_st;                (* None: not started *)
  spec : option spec_st;
  sdr : option sdr_st;
  saver : option save_pc
}.

Definition with_shared (w : world) (s : sys) : sys :=
  Sys w (mn s) (tel s) (spec s) (sdr s) (saver s).

Definition with_main (pc : main_pc) (w : world) (s : sys) : sys :=
  Sys w pc (tel s) (spec s) (sdr s) (saver s).

(** Whether a KeyboardInterrupt or another exception lands inside the
    [try] of lines 122-133. *)
Definition in_try (pc : main_pc) : bool :=
  match pc with
  | MnInit _ | MnCheck _ _ | MnSleep _ _ | MnSet | MnLeave => true
  | _ => false
  end.

Definition main_step (s : sys) : option sys :=
  let w := shared s in
  match mn s with
  | MnStart p 0 =>
      Some (Sys (emit Main [EvStart Telescope] w) (MnStart p 1)
                (Some (TelSt TelCheck (p_target_alt p) (p_target_az p)))
                (spec s) (sdr s) (saver s))
  | MnStart p 1 =>
      Some (Sys (emit Main [EvStart Spectrometer] w) (MnStart p 2)
                (tel s) (Some (SpecSt SpInit (p_duration p) PyNone 0))
                (sdr s) (saver s))
  | MnStart p 2 =>
      Some (Sys (emit Main [EvStart Sdr] w) (MnStart p 3)
                (tel s) (spec s)
                (Some (SdrSt SdNew (p_nsamples p) (p_nblocks p)
                             (p_duration p) 0))
                (saver s))
  | MnStart p _ =>
      Some (Sys (emit Main [EvStart Saver] w) (MnInit (p_duration p))
                (tel s) (spec s) (sdr s) (Some SvCheck))
  | MnInit d => Some (with_main (MnCheck d (clock w)) w s)
  | MnCheck d t0 =>
      if lt_float (clock w - t0) d
      then Some (with_main (MnSleep d t0) w s)
      else Some (with_main MnSet (emit Main [EvPrint MsgDurationReached] w) s)
  | MnSleep d t0 =>
      Some (with_main (MnCheck d t0) (emit Main [EvSleep 1] w) s)
  | MnSet =>
      Some (with_main MnLeave (emit Main [EvSetFlag] (set_flag w)) s)
  | MnLeave => Some (with_main MnFinal w s)
  | MnFinal =>
      Some (with_main MnExit (emit Main [EvPrint MsgCompleted] w) s)
  | MnExit => None
  end.

(** The handlers of lines 128-133. *)
Definition main_handler (m : message) (s : sys) : option sys :=
  if in_try (mn s)
  then Some (with_main MnFinal
               (emit Main [EvPrint m; EvSetFlag] (set_flag (shared s))) s)
  else None.

(** ** The whole program *)

Inductive label :=
| Run (t : tid) (i : supply)     (* thread t takes a step *)
| Tick (d : Q)                   (* time passes *)
| Interrupt                      (* KeyboardInterrupt in the main thread *)
| Fault (e : exn).               (* another exception in the main thread *)

Definition alive (s : sys) : bool :=
  match mn s with MnExit => false | _ => true end.

Definition lift {A : Type} (put : A -> world -> sys) (r : option (A * world))
  : option sys :=
  match r with
  | Some (a, w) => Some (put a w)
  | None => None
  end.

(** Daemon threads die with the process: nothing moves once the main
    thread has left. *)
Definition step (C : collaborators) (l : label) (s : sys) : option sys :=
  if negb (alive s) then None else
  match l with
  | Run Main Plain => main_step s
  | Run Main _ => None
  | Run Telescope i =>
      match tel s with
      | Some st =>
          lift (fun st' w' =>
                  Sys w' (mn s) (Some st') (spec s) (sdr s) (saver s))
               (point_telescope i st (shared s))
      | None => None
      end
  | Run Spectrometer i =>
      match spec s with
      | Some st =>
          lift (fun st' w' =>
                  Sys w' (mn s) (tel s) (Some st') (sdr s) (saver s))
               (collect_spectrometer_data i st (shared s))
      | None => None
      end
  | Run Sdr i =>
      match sdr s with
      | Some st =>
          lift (fun st' w' =>
                  Sys w' (mn s) (tel s) (spec s) (Some st') (saver s))
               (collect_sdr_data i st (shared s))
      | None => None
      end
  | Run Saver i =>
      match saver s with
      | Some pc =>
          lift (fun pc' w' =>
                  Sys w' (mn s) (tel s) (spec s) (sdr s) (Some pc'))
               (save_data_periodically C i pc (shared s))
      | None => None
      end
  | Tick d =>
      if Qle_bool 0 d then Some (with_shared (advance d (shared s)) s)
      else None
  | Interrupt => main_handler MsgTerminating s
  | Fault e => main_handler (MsgUnexpected e) s
  end.

Fixpoint run (C : collaborators) (ls : list label) (s : sys) : option sys :=
  match ls with
  | [] => Some s
  | l :: ls' =>
      match step C l s with
      | Some s' => run C ls' s'
      | None => None
      end
  end.

(** ** The input section, lines 81-109

    A small state-and-exception monad: the state is the answers still to be
    typed and the events so far; an exception leaves the [try] at once. *)

Definition io (A : Type) : Type :=
  list string * list event -> (list string * list event) * res A.

Definition ret {A : Type} (a : A) : io A := fun st => (st, Ok a).

Definition bind {A B : Type} (m : io A) (k : A -> io B) : io B :=
  fun st =>
    match m st with
    | (st', Ok a) => k a st'
    | (st', Raise e) => (st', Raise e)
    end.

Notation "x <- m ;; k" := (bind m (fun x => k))
  (at level 61, m at next level, right associativity).
Notation "' pat <- m ;; k" := (bind m (fun x => match x with pat => k end))
  (at level 61, pat pattern, m at next level, right associativity).

Definition log (e : event) : io unit :=
  fun '(answers, evs) => ((answers, evs ++ [e]), Ok tt).

Definition raise_or_ret {A : Type} (r : res A) : io A := fun st => (st, r).

(** [input(...)]: the next line typed, or EOFError when there is none.
    A KeyboardInterrupt at a prompt is not an [Exception]: line 107 does
    not catch it and the process ends with a traceback, before anything is
    started.  The sessions of the model are those in which the user types
    lines or ends the input. *)
Definition input (p : prompt) : io string :=
  fun '(answers, evs) =>
    match answers with
    | a :: rest => ((rest, evs ++ [EvPrompt p (Some a)]), Ok a)
    | [] => ((answers, evs ++ [EvPrompt p None]),
             Raise "EOF when reading a line"%string)
    end.

(** [str.isspace] and [str.lower] on ASCII.  On an answer with other
    characters [str.strip] also removes the Unicode white space (U+0085,
    U+00A0, ...): what is proved about the yes/no answers is stated for
    ASCII answers. *)
Definition is_space (c : ascii) : bool :=
  let n := nat_of_ascii c in
  ((9 <=? n) && (n <=? 13) || (28 <=? n) && (n <=? 32))%nat.

Definition lower_char (c : ascii) : ascii :=
  let n := nat_of_ascii c in
  if ((65 <=? n) && (n <=? 90))%nat then ascii_of_nat (n + 32) else c.

Fixpoint lstrip (s : string) : string :=
  match s with
  | String c s' => if is_space c then lstrip s' else s
  | EmptyString => EmptyString
  end.

Fixpoint rstrip (s : string) : string :=
  match s with
  | String c s' =>
      match rstrip s' with
      | EmptyString => if is_space c then EmptyString else String c EmptyString
      | t => String c t
      end
  | EmptyString => EmptyString
  end.

Definition strip (s : string) : string := rstrip (lstrip s).

Fixpoint lower (s : string) : string :=
  match s with
  | String c s' => String (lower_char c) (lower s')
  | EmptyString => EmptyString
  end.

(** [input(...).strip().lower() == "yes"] *)
Definition says_yes (s : string) : bool :=
  String.eqb (lower (strip s)) "yes".

(** The observer of lines 88 and 96. *)
Definition berkeley_lat : Q := 37.8716.
Definition berkeley_lon : Q := -122.2727.
Definition berkeley_alt : Q := 0.

Section Setup.

Variable C : collaborators.

Definition ask_float (p : prompt) : io pyfloat :=
  s <- input p ;; raise_or_ret (py_float C s).

Definition ask_int (p : prompt) : io Z :=
  s <- input p ;; raise_or_ret (py_int C s).

Definition call_get_altaz (ra dec : pyfloat) (jd lat lon alt : Q)
  : io (pyfloat * pyfloat) :=
  _ <- log (EvGetAltaz ra dec jd lat lon alt) ;;
  raise_or_ret (get_altaz C ra dec jd lat lon alt).

(** Lines 85-101: the target. *)
Definition read_target (observe_sun process_coords : bool)
  : io (pyfloat * pyfloat) :=
  if observe_sun then
    _ <- log EvJulianDate ;;
    let jd := julian_date C in
    _ <- log (EvSunpos jd) ;;
    '(ra, dec) <- raise_or_ret (sunpos C jd) ;;
    '(alt, az) <- call_get_altaz ra dec jd
                    berkeley_lat berkeley_lon berkeley_alt ;;
    _ <- log (EvPrint (MsgSunPosition alt az)) ;;
    ret (alt, az)
  else if process_coords then
    ra <- ask_float AskRa ;;
    dec <- ask_float AskDec ;;
    let jd := (time_time C / 86400 + 2440587.5)%Q in
    call_get_altaz ra dec jd berkeley_lat berkeley_lon berkeley_alt
  else
    alt <- ask_float AskAltitude ;;
    az <- ask_float AskAzimuth ;;
    ret (alt, az).

(** Lines 82-105: the body of the [try]. *)
Definition read_params : io params :=
  sun <- input AskSun ;;
  let observe_sun := says_yes sun in
  process_coords <-
    (if negb observe_sun
     then (c <- input AskCoords ;; ret (says_yes c))
     else ret false) ;;
  '(alt, az) <- read_target observe_sun process_coords ;;
  nsamples <- ask_int AskNsamples ;;
  nblocks <- ask_int AskNblocks ;;
  duration <- ask_float AskDuration ;;
  ret (Params alt az nsamples nblocks duration).

(** The shared state at line 110: the flag unset, the lock free, the
    buffer empty, and nothing written to the file yet.  What an earlier run
    may have left in the file stays there until the first write and is not
    looked at. *)
Definition initial_world (evs : list event) : world :=
  World false None [] None (time_time C) (map (pair Main) evs).

(** The program up to line 110: either the threads are about to be
    started, or the handler of lines 107-109 has printed the error and
    left. *)
Definition boot (answers : list string) : sys :=
  match read_params (answers, []) with
  | ((_, evs), Ok p) =>
      Sys (initial_world evs) (MnStart p 0) None None None None
  | ((_, evs), Raise e) =>
      Sys (initial_world (evs ++ [EvPrint (MsgInputError e); EvExit]))
          MnExit None None None None
  end.

(** A session: the input section, then any interleaving of the threads. *)
Definition session (answers : list string) (ls : list label) : option sys :=
  run C ls (boot answers).

End Setup.

(** ** Vocabulary of the properties *)

(** Thread [t] stands at the test of its [while]. *)
Definition at_check (t : tid) (s : sys) : bool :=
  match t with
  | Main => false
  | Telescope =>
      match tel s with
      | Some st => match tel_at st with TelCheck => true | _ => false end
      | None => false
      end
  | Spectrometer =>
      match spec s with
      | Some st => match sp_at st with SpCheck => true | _ => false end
      | None => false
      end
  | Sdr =>
      match sdr s with
      | Some st => match sd_at st with SdCheck => true | _ => false end
      | None => false
      end
  | Saver =>
      match saver s with
      | Some SvCheck => true
      | _ => false
      end
  end.

(** Thread [t] has returned from its function. *)
Definition returned (t : tid) (s : sys) : bool :=
  match t with
  | Main => false
  | Telescope =>
      match tel s with
      | Some st => match tel_at st with TelDone => true | _ => false end
      | None => false
      end
  | Spectrometer =>
      match spec s with
      | Some st => match sp_at st with SpDone => true | _ => false end
      | None => false
      end
  | Sdr =>
      match sdr s with
      | Some st => match sd_at st with SdDone => true | _ => false end
      | None => false
      end
  | Saver =>
      match saver s with
      | Some SvDone => true
      | _ => false
      end
  end.

(** Neither a hardware call nor an append. *)
Definition harmless (e : event) : bool :=
  negb (is_hw e) && negb (is_append e).

(** The records appended according to a trace, oldest first. *)
Fixpoint appended (tr : list (tid * event)) : list pyval :=
  match tr with
  | [] => []
  | (_, EvAppend r) :: tr' => r :: appended tr'
  | _ :: tr' => appended tr'
  end.

Definition is_str (v : pyval) : bool :=
  match v with PyStr _ => true | _ => false end.

(** A record with a [time] field that holds a string, and exactly one of
    the payload keys. *)
Definition well_formed_record (r : pyval) : bool :=
  match r with
  | PyDict kvs =>
      has_key "time" kvs && is_str (getitem "time" kvs)
      && xorb (has_key "spectra" kvs) (has_key "sdr" kvs)
  | _ => false
  end.

(** The threads not yet reached by the loop of line 117 have not started. *)
Definition launch_ok (s : sys) : bool :=
  let none {A : Type} (o : option A) :=
    match o with None => true | Some _ => false end in
  match mn s with
  | MnStart _ 0 => none (tel s) && none (spec s) && none (sdr s) && none (saver s)
  | MnStart _ 1 => none (spec s) && none (sdr s) && none (saver s)
  | MnStart _ 2 => none (sdr s) && none (saver s)
  | MnStart _ _ => none (saver s)
  | _ => true
  end.

(** How many appends a trace holds. *)
Definition count_appends (tr : list (tid * event)) : nat :=
  List.length (filter (fun te => is_append (snd te)) tr).

(** What the input section may do: prompt, consult the ephemeris, convert
    for the observer of lines 88 and 96, print the Sun's position. *)
Definition setup_event (e : event) : bool :=
  match e with
  | EvPrompt _ _ | EvJulianDate | EvSunpos _
  | EvPrint (MsgSunPosition _ _) => true
  | EvGetAltaz _ _ _ lat lon alt =>
      Q_same lat berkeley_lat && Q_same lon berkeley_lon
      && Q_same alt berkeley_alt
  | _ => false
  end.

Definition is_raise {A : Type} (r : res A) : bool :=
  match r with Raise _ => true | Ok _ => false end.

(** The answer [a] to the numeric prompt [p] is malformed: [float] or [int]
    raises on it. *)
Definition rejects (C : collaborators) (p : prompt) (a : string) : bool :=
  match p with
  | AskRa | AskDec | AskAltitude | AskAzimuth | AskDuration =>
      is_raise (py_float C a)
  | AskNsamples | AskNblocks => is_raise (py_int C a)
  | AskSun | AskCoords => false
  end.

Definition accepted (C : collaborators) (e : event) : bool :=
  match e with
  | EvPrompt p (Some a) => negb (rejects C p a)
  | _ => true
  end.

(** The events of the input section on the given answers, and its result. *)
Definition setup_events (C : collaborators) (answers : list string)
  : list event :=
  snd (fst (read_params C (answers, []))).

Definition setup_result (C : collaborators) (answers : list string)
  : res params :=
  snd (read_params C (answers, [])).

(** [m] only adds events; all of them satisfy [always], and all of them
    satisfy [if_ok] when [m] returns normally. *)
Definition io_emits {A : Type} (always if_ok : event -> bool) (m : io A)
  : Prop :=
  forall st,
    exists new,
      snd (fst (m st)) = snd st ++ new /\
      forallb always new = true /\
      (is_raise (snd (m st)) = false -> forallb if_ok new = true).

(** ** Monitors

    A monitor reads the events of one thread, oldest first, and says after
    each event what may come next; [None] means the stream has left what
    the monitor allows. *)

Fixpoint monitor {X : Type} (next : X -> event -> option X) (x : X)
    (es : list event) : option X :=
  match es with
  | [] => Some x
  | e :: es' =>
      match next x e with
      | Some x' => monitor next x' es'
      | None => None
      end
  end.

(** [r] is [{"time": <a string>, "spectra": data}]. *)
Definition is_spectra_record (data : dict) (r : pyval) : bool :=
  match r with
  | PyDict ((_, PyStr ts) :: _) => pyval_eqb r (spectra_record ts data)
  | _ => false
  end.


(** The spectrometer loop as the specification words it: an append comes
    right after a response that has the field [acc_cnt], carries that
    response, and comes at no other time.  The state is the response whose
    append is due, if any. *)
Definition spectro_next (due : option dict) (e : event)
  : option (option dict) :=
  match due, e with
  | Some data, EvAppend r =>
      if is_spectra_record data r then Some None else None
  | Some _, _ => None
  | None, EvAppend _ => None
  | None, EvReadData _ (Ok data) =>
      Some (if has_key "acc_cnt" data then Some data else None)
  | None, _ => Some None
  end.

(** The response whose append the spectrometer thread is about to make. *)
Definition spectro_due (s : sys) : option dict :=
  match spec s with
  | Some st =>
      match sp_at st with
      | SpLock data | SpAppend data => Some data
      | _ => None
      end
  | None => None
  end.




(** ** Invariants and further vocabulary *)

(** The threads run with the parameters [p] of the input section. *)
Definition runs_with (p : params) (s : sys) : Prop :=
  (forall p' k, mn s = MnStart p' k -> p' = p) /\
  (forall st, tel s = Some st ->
     target_alt st = p_target_alt p /\ target_az st = p_target_az p) /\
  (forall st, spec s = Some st -> sp_duration st = p_duration p) /\
  (forall st, sdr s = Some st ->
     sd_nsamples st = p_nsamples p /\ sd_nblocks st = p_nblocks p /\
     sd_duration st = p_duration p).

(** What the spectrometer thread has done by the time it stands at each
    point of its function, when its loop body is never entered. *)
Definition spectro_skips (s : sys) : Prop :=
  let es := events_of Spectrometer (trace (shared s)) in
  match spec s with
  | None => es = []
  | Some st =>
      match sp_at st with
      | SpInit => es = []
      | SpCheck => es = [] /\ (sp_start_time st <= clock (shared s))%Q
      | SpDone => es = [EvPrint MsgSpecFinished]
      | _ => False
      end
  end.

(** The same for the SDR thread. *)
Definition sdr_skips (s : sys) : Prop :=
  let es := events_of Sdr (trace (shared s)) in
  match sdr s with
  | None => es = []
  | Some st =>
      match sd_at st with
      | SdNew => es = []
      | SdInit => es = [EvSdrNew (Ok tt)]
      | SdCheck =>
          es = [EvSdrNew (Ok tt)] /\
          (sd_start_time st <= clock (shared s))%Q
      | SdDone =>
          es = [EvSdrNew (Ok tt); EvPrint MsgSdrFinished] \/
          exists e, es = [EvSdrNew (Raise e); EvPrint (MsgSdrError e)]
      | _ => False
      end
  end.

(** A spectrometer read or an SDR capture. *)
Definition is_acquisition (e : event) : bool :=
  match e with
  | EvReadData _ _ | EvCapture _ _ _ => true
  | _ => false
  end.

(** The label is a step of thread [t]. *)
Definition label_of (t : tid) (l : label) : bool :=
  match l with
  | Run t' _ => tid_eqb t t'
  | _ => false
  end.

(** Two states that differ at most in the pointing thread and in what the
    trace records. *)
Definition same_elsewhere (s s' : sys) : Prop :=
  terminate_flag (shared s') = terminate_flag (shared s) /\
  data_lock (shared s') = data_lock (shared s) /\
  collected_data (shared s') = collected_data (shared s) /\
  DATA_FILE (shared s') = DATA_FILE (shared s) /\
  clock (shared s') = clock (shared s) /\
  mn s' = mn s /\ spec s' = spec s /\ sdr s' = sdr s /\ saver s' = saver s.

(** The message of a failed write, if that is what the step was given. *)
Definition write_failure (i : supply) : option exn :=
  match i with
  | OpenFails e | DumpFails _ e => Some e
  | _ => None
  end.

(** Whoever is inside [with data_lock] holds the lock. *)
Definition lock_ok (s : sys) : Prop :=
  (forall st d, spec s = Some st -> sp_at st = SpAppend d ->
     data_lock (shared s) = Some Spectrometer) /\
  (forall st v, sdr s = Some st -> sd_at st = SdAppend v ->
     data_lock (shared s) = Some Sdr) /\
  (saver s = Some SvWrite -> data_lock (shared s) = Some Saver).

(** Neither a thread start nor a write of the snapshot file. *)
Definition no_start_no_save (e : event) : bool :=
  negb (is_start e) && negb (is_save e).

(** A conversion, if [e] is one, is for the observer of lines 88 and 96. *)
Definition observer_ok (e : event) : bool :=
  match e with
  | EvGetAltaz _ _ _ lat lon alt =>
      Q_same lat berkeley_lat && Q_same lon berkeley_lon
      && Q_same alt berkeley_alt
  | _ => true
  end.




(** ** A JSON serializer

    [json.dumps(v, indent=4)] and [json.loads] for the values made of
    [None], booleans, integers, strings of printable ASCII characters other
    than the quote and the backslash, lists and dicts.  Floats, other
    strings and opaque objects count as not serializable here.  The sample
    environment below uses it; the script itself is modelled for any
    serializer. *)

Module Json.

Definition text := list ascii.

Definition quote : ascii := "034"%char.

Definition newline : ascii := "010"%char.


(** A character that [json.dumps] writes as it is. *)
Definition plain_char (c : ascii) : bool :=
  let n := nat_of_ascii c in
  (32 <=? n)%nat && (n <? 127)%nat && negb (Ascii.eqb c quote)
  && negb (Ascii.eqb c "092").

Fixpoint uint_chars (d : Decimal.uint) : text :=
  match d with
  | Decimal.Nil => []
  | Decimal.D0 d => "0"%char :: uint_chars d
  | Decimal.D1 d => "1"%char :: uint_chars d
  | Decimal.D2 d => "2"%char :: uint_chars d
  | Decimal.D3 d => "3"%char :: uint_chars d
  | Decimal.D4 d => "4"%char :: uint_chars d
  | Decimal.D5 d => "5"%char :: uint_chars d
  | Decimal.D6 d => "6"%char :: uint_chars d
  | Decimal.D7 d => "7"%char :: uint_chars d
  | Decimal.D8 d => "8"%char :: uint_chars d
  | Decimal.D9 d => "9"%char :: uint_chars d
  end.

Definition print_int (z : Z) : text :=
  match Z.to_int z with
  | Decimal.Pos d => uint_chars d
  | Decimal.Neg d => "-"%char :: uint_chars d
  end.

Definition print_string (s : string) : option text :=
  let cs := list_ascii_of_string s in
  if forallb plain_char cs then Some (quote :: cs ++ [quote]) else None.

Definition newline_indent (lvl : nat) : text :=
  newline :: repeat " "%char (4 * lvl).

(** The items after the first: each one after a comma and a new line. *)
Section Items.

Variable print : pyval -> option text.

Variable sep : text.

Fixpoint print_more (xs : list pyval) : option text :=
  match xs with
  | [] => Some []
  | y :: ys =>
      match print y, print_more ys with
      | Some a, Some b => Some (","%char :: sep ++ a ++ b)
      | _, _ => None
      end
  end.

Definition print_member (kv : string * pyval) : option text :=
  match print_string (fst kv), print (snd kv) with
  | Some n, Some a => Some (n ++ ":"%char :: " "%char :: a)
  | _, _ => None
  end.

Fixpoint print_more_members (kvs : list (string * pyval)) : option text :=
  match kvs with
  | [] => Some []
  | kv :: kvs' =>
      match print_member kv, print_more_members kvs' with
      | Some a, Some b => Some (","%char :: sep ++ a ++ b)
      | _, _ => None
      end
  end.

End Items.

(** [json.dumps(v, indent=4)], from nesting level [lvl] on. *)
Fixpoint print_value (lvl : nat) (v : pyval) {struct v} : option text :=
  match v with
  | PyNone => Some (list_ascii_of_string "null")
  | PyBool true => Some (list_ascii_of_string "true")
  | PyBool false => Some (list_ascii_of_string "false")
  | PyInt z => Some (print_int z)
  | PyFloat _ => None
  | PyStr s => print_string s
  | PyList [] => Some (list_ascii_of_string "[]")
  | PyList (x :: xs) =>
      match print_value (S lvl) x,
            print_more (print_value (S lvl)) (newline_indent (S lvl)) xs with
      | Some a, Some b =>
          Some ("["%char :: newline_indent (S lvl) ++ a ++ b
                ++ newline_indent lvl ++ ["]"%char])
      | _, _ => None
      end
  | PyDict [] => Some (list_ascii_of_string "{}")
  | PyDict (kv :: kvs) =>
      match print_member (print_value (S lvl)) kv,
            print_more_members (print_value (S lvl))
                               (newline_indent (S lvl)) kvs with
      | Some a, Some b =>
          Some ("{"%char :: newline_indent (S lvl) ++ a ++ b
                ++ newline_indent lvl ++ ["}"%char])
      | _, _ => None
      end
  | PyObject _ => None
  end.

Definition dumps (v : pyval) : option string :=
  option_map string_of_list_ascii (print_value 0 v).

(** *** Reading it back *)















End Json.


(** ** A sample environment and a sample session

    Concrete collaborators to run the model on: the number parsers accept
    plain decimal digit strings (which [float] and [int] accept too),
    [sample_float] also [nan] and [inf], and reject everything else; the
    serializer is [Json.dumps]. *)

Definition digit_of (c : ascii) : option Z :=
  let n := nat_of_ascii c in
  if ((48 <=? n) && (n <=? 57))%nat then Some (Z.of_nat (n - 48)) else None.

Fixpoint digits_from (acc : Z) (s : string) : option Z :=
  match s with
  | EmptyString => Some acc
  | String c s' =>
      match digit_of c with
      | Some d => digits_from (10 * acc + d) s'
      | None => None
      end
  end.

Definition sample_int (s : string) : res Z :=
  match s with
  | EmptyString => Raise "invalid literal for int() with base 10"%string
  | _ =>
      match digits_from 0 s with
      | Some z => Ok z
      | None => Raise "invalid literal for int() with base 10"%string
      end
  end.

Definition sample_float (s : string) : res pyfloat :=
  if String.eqb s "nan" then Ok NaN
  else if String.eqb s "inf" then Ok PosInf
  else
    match s with
    | EmptyString => Raise "could not convert string to float"%string
    | _ =>
        match digits_from 0 s with
        | Some z => Ok (Fin (inject_Z z))
        | None => Raise "could not convert string to float"%string
        end
    end.

Definition sample : collaborators :=
  Collaborators Json.dumps sample_float sample_int
    2460000 1700000000
    (fun jd => Ok (Fin 10, Fin 20))
    (fun ra dec jd lat lon alt => Ok (Fin 45, Fin 180)).

(** Fixed altitude and azimuth, 1024 samples in 4 blocks, 3 seconds. *)
Definition sample_answers : list string :=
  ["no"; "no"; "45"; "180"; "1024"; "4"; "3"]%string.

(** The four threads are started and the main thread reads the clock. *)
Definition sample_launch : list label :=
  [Run Main Plain; Run Main Plain; Run Main Plain; Run Main Plain;
   Run Main Plain].

(** ... then five seconds pass, the main thread finds the duration over
    and sets the flag. *)
Definition sample_timeout : list label :=
  sample_launch ++ [Tick 5; Run Main Plain; Run Main Plain].

(** ... or a KeyboardInterrupt arrives when the flag has just been set:
    the handler prints its line and sets the flag again. *)
Definition sample_interrupted : list label :=
  sample_timeout ++ [Interrupt; Run Main Plain].

Definition state_after (answers : list string) (ls : list label) : sys :=
  match session sample answers ls with
  | Some s => s
  | None => boot sample answers
  end.

(** The spectrometer thread goes once round its loop and appends a record. *)
Definition sample_spectrum : list label :=
  [Run Spectrometer Plain; Run Spectrometer Plain;
   Run Spectrometer (ReturnsDict [("acc_cnt"%string, PyInt 1)]);
   Run Spectrometer Plain;
   Run Spectrometer (Utc "Tue Nov  3 10:08:00 2026"%string)].

(** The SDR thread builds its handle, captures once and appends a record. *)
Definition sample_capture : list label :=
  [Run Sdr Returns; Run Sdr Plain; Run Sdr Plain;
   Run Sdr (ReturnsVal (PyObject 0));
   Run Sdr Plain;
   Run Sdr (Utc "Tue Nov  3 10:08:01 2026"%string)].

(** The saver takes the lock, and [open] fails. *)
Definition sample_write_failure : list label :=
  sample_launch ++
  [Run Saver Plain; Run Saver Plain;
   Run Saver (OpenFails "No space left on device"%string)].

(** The right ascension typed in is not a number. *)
Definition bad_ra_answers : list string :=
  ["no"; "yes"; "abc"; "10"; "1024"; "4"; "3"]%string.

(** The Sun is the target. *)
Definition sun_answers : list string :=
  ["yes"; "1024"; "4"; "3"]%string.

(** The spectrometer has its response and the lock, the append is next. *)
Definition sample_spectrum_locked : list label :=
  sample_launch ++ firstn 4 sample_spectrum.

(** A duration of zero seconds. *)
Definition zero_answers : list string :=
  ["no"; "no"; "45"; "180"; "1024"; "4"; "0"]%string.


Definition zero_params : params :=
  Params (Fin 45) (Fin 180) 1024 4 (Fin 0).

(** Both acquisition threads run to their end. *)
Definition sample_skip : list label :=
  sample_launch ++
  [Run Spectrometer Plain; Run Spectrometer Plain;
   Run Sdr Returns; Run Sdr Plain; Run Sdr Plain].

(** One spectrometer record is in the buffer and the saver holds the
    lock. *)
Definition sample_saver_locked : list label :=
  sample_launch ++ sample_spectrum ++ [Run Saver Plain; Run Saver Plain].




(** ** Vocabulary of the further properties *)

(** Thread [t] is inside [with data_lock]. *)
Definition in_critical (t : tid) (s : sys) : bool :=
  match t with
  | Spectrometer =>
      match spec s with
      | Some st => match sp_at st with SpAppend _ => true | _ => false end
      | None => false
      end
  | Sdr =>
      match sdr s with
      | Some st => match sd_at st with SdAppend _ => true | _ => false end
      | None => false
      end
  | Saver =>
      match saver s with
      | Some SvWrite => true
      | _ => false
      end
  | _ => false
  end.

(** The lock is held only by a thread that is inside [with data_lock]. *)
Definition held_ok (s : sys) : Prop :=
  forall t, data_lock (shared s) = Some t -> in_critical t s = true.

(** The main thread as the source has it, lines 81-135: the input section;
    then either the input error and [exit()], or the four threads started
    in the order of line 117, the wait in sleeps of one second, and the
    end.  The end is the line of 126 and [terminate_flag.set()], or the
    line of a handler and the handler's [set()]; a handler can still run
    after the line of 126 and even after the [set()] of line 127, as long
    as the [try] is not left, and then [set()] is called a second time.
    The completion line comes last. *)
Inductive main_expect :=
| MxSetup                   (* inside the input section *)
| MxAbort                   (* the input error is printed *)
| MxStarting (k : nat)      (* k threads are started, k = 1, 2, 3 *)
| MxWait                    (* the loop of lines 124-125 *)
| MxReached                 (* "Time duration reached" is printed *)
| MxHandled                 (* the line of a handler is printed *)
| MxSet                     (* line 127 has set the flag *)
| MxDone                    (* a handler has set the flag *)
| MxEnd.

Definition main_next (x : main_expect) (e : event) : option main_expect :=
  match x, e with
  | MxSetup, EvPrint (MsgInputError _) => Some MxAbort
  | MxSetup, EvStart Telescope => Some (MxStarting 1)
  | MxSetup, _ => if setup_event e then Some MxSetup else None
  | MxAbort, EvExit => Some MxEnd
  | MxStarting 1, EvStart Spectrometer => Some (MxStarting 2)
  | MxStarting 2, EvStart Sdr => Some (MxStarting 3)
  | MxStarting 3, EvStart Saver => Some MxWait
  | MxWait, EvSleep secs => if Q_same secs 1 then Some MxWait else None
  | MxWait, EvPrint MsgDurationReached => Some MxReached
  | MxWait, EvPrint MsgTerminating => Some MxHandled
  | MxWait, EvPrint (MsgUnexpected _) => Some MxHandled
  | MxReached, EvPrint MsgTerminating => Some MxHandled
  | MxReached, EvPrint (MsgUnexpected _) => Some MxHandled
  | MxReached, EvSetFlag => Some MxSet
  | MxSet, EvPrint MsgTerminating => Some MxHandled
  | MxSet, EvPrint (MsgUnexpected _) => Some MxHandled
  | MxHandled, EvSetFlag => Some MxDone
  | MxSet, EvPrint MsgCompleted => Some MxEnd
  | MxDone, EvPrint MsgCompleted => Some MxEnd
  | _, _ => None
  end.

(** Where the main thread stands, in the monitor's terms. *)
Definition main_agrees (x : main_expect) (s : sys) : bool :=
  match mn s, x with
  | MnStart _ 0, MxSetup
  | MnStart _ 1, MxStarting 1
  | MnStart _ 2, MxStarting 2
  | MnStart _ (S (S (S _))), MxStarting 3
  | (MnInit _ | MnCheck _ _ | MnSleep _ _), MxWait
  | MnSet, MxReached
  | MnLeave, MxSet
  | MnFinal, (MxSet | MxDone)
  | MnExit, MxEnd => true
  | _, _ => false
  end.

Definition is_set_flag (e : event) : bool :=
  match e with EvSetFlag => true | _ => false end.

(** How often [terminate_flag.set()] has set the flag. *)
Definition count_set_flag (tr : list (tid * event)) : nat :=
  List.length (filter (fun te => is_set_flag (snd te)) tr).

(** The main thread has left its wait through line 127 or a handler. *)
Definition past_wait (pc : main_pc) : bool :=
  match pc with
  | MnLeave | MnFinal | MnExit => true
  | _ => false
  end.

Definition is_handler_line (e : event) : bool :=
  match e with
  | EvPrint MsgTerminating | EvPrint (MsgUnexpected _) => true
  | _ => false
  end.

(** What links the flag to the calls of [set()] and to the main thread:
    [set()] is called by line 127 or by a handler, and by both only when
    the handler runs after line 127 has set the flag. *)
Definition flag_ok (s : sys) : Prop :=
  let tr := trace (shared s) in
  let n := count_set_flag tr in
  let f := terminate_flag (shared s) in
  forallb (fun te => implb (is_set_flag (snd te)) (tid_eqb Main (fst te))) tr
    = true /\
  (In (Main, EvPrint MsgCompleted) tr -> f = true) /\
  (n = 2%nat ->
   In (Main, EvPrint MsgDurationReached) tr /\
   existsb is_handler_line (events_of Main tr) = true) /\
  match mn s with
  | MnSet =>
      f = false /\ n = 0%nat /\ In (Main, EvPrint MsgDurationReached) tr
  | MnLeave =>
      f = true /\ n = 1%nat /\ In (Main, EvPrint MsgDurationReached) tr
  | MnFinal => f = true /\ (n = 1%nat \/ n = 2%nat)
  | MnExit =>
      (f = false /\ n = 0%nat) \/ (f = true /\ (n = 1%nat \/ n = 2%nat))
  | _ => f = false /\ n = 0%nat
  end.




(** The pointing loop as the source has it, lines 29-34: a call of
    [interf.point] at the target, then either its line and a sleep of five
    seconds, or the error line and nothing more. *)
Inductive tel_expect := TxIdle | TxPointed | TxSleep | TxEnd.

Definition tel_next (alt az : pyfloat) (x : tel_expect) (e : event)
  : option tel_expect :=
  match x, e with
  | TxIdle, EvPoint a z =>
      if float_same a alt && float_same z az then Some TxPointed else None
  | TxPointed, EvPrint (MsgPointed a z) =>
      if float_same a alt && float_same z az then Some TxSleep else None
  | TxPointed, EvPrint (MsgTelescopeError _) => Some TxEnd
  | TxSleep, EvSleep secs => if Q_same secs 5 then Some TxIdle else None
  | _, _ => None
  end.

(** The monitor's state [x] fits where the pointing thread stands. *)
Definition tel_agrees (x : tel_expect) (s : sys) : bool :=
  match tel s with
  | None => match x with TxIdle => true | _ => false end
  | Some st =>
      match tel_at st, x with
      | TelCheck, TxIdle | TelPoint, TxIdle | TelSleep, TxSleep
      | TelDone, TxIdle | TelDone, TxEnd => true
      | _, _ => false
      end
  end.

(** The writer loop as the source has it, lines 71-78: a write of the
    file, then either its line and a sleep of ten seconds, or the error
    line and nothing more. *)
Inductive save_expect := WxIdle | WxSaving | WxSleep | WxEnd.

Definition save_next (x : save_expect) (e : event) : option save_expect :=
  match x, e with
  | WxIdle, EvSave => Some WxSaving
  | WxSaving, EvPrint MsgSaved => Some WxSleep
  | WxSaving, EvPrint (MsgSaveError _) => Some WxEnd
  | WxSleep, EvSleep secs => if Q_same secs 10 then Some WxIdle else None
  | _, _ => None
  end.

Definition save_agrees (x : save_expect) (s : sys) : bool :=
  match saver s with
  | None => match x with WxIdle => true | _ => false end
  | Some pc =>
      match pc, x with
      | SvCheck, WxIdle | SvLock, WxIdle | SvWrite, WxIdle
      | SvSleep, WxSleep | SvDone, WxIdle | SvDone, WxEnd => true
      | _, _ => false
      end
  end.

(** The spectrometer loop as the source has it, lines 39-51, with what it
    passes to [snap.read_data]: [None] at first and from then on the
    [acc_cnt] of the latest response that had one.  Every iteration ends
    with a sleep of one second; a call that raises is followed by the
    error line with its message, and nothing comes after the error line or
    the completion line. *)
Inductive spectro_expect :=
| SqIdle (prev_cnt : pyval)
| SqAppend (prev_cnt : pyval) (data : dict)
| SqSleep (prev_cnt : pyval)
| SqError (e : exn)
| SqEnd.

Definition spectro_contract (x : spectro_expect) (e : event)
  : option spectro_expect :=
  match x, e with
  | SqIdle prev, EvReadData p (Ok data) =>
      if pyval_eqb p prev
      then Some (if has_key "acc_cnt" data
                 then SqAppend (getitem "acc_cnt" data) data
                 else SqSleep prev)
      else None
  | SqIdle prev, EvReadData p (Raise e) =>
      if pyval_eqb p prev then Some (SqError e) else None
  | SqIdle _, EvPrint MsgSpecFinished => Some SqEnd
  | SqAppend prev data, EvAppend r =>
      if is_spectra_record data r then Some (SqSleep prev) else None
  | SqSleep prev, EvSleep secs =>
      if Q_same secs 1 then Some (SqIdle prev) else None
  | SqError e, EvPrint (MsgSpecError e') =>
      if String.eqb e e' then Some SqEnd else None
  | _, _ => None
  end.

Definition spectro_expected (s : sys) : spectro_expect :=
  match spec s with
  | None => SqIdle PyNone
  | Some st =>
      match sp_at st with
      | SpInit => SqIdle PyNone
      | SpCheck | SpRead => SqIdle (sp_prev_cnt st)
      | SpLock data | SpAppend data => SqAppend (sp_prev_cnt st) data
      | SpSleep => SqSleep (sp_prev_cnt st)
      | SpDone => SqEnd
      end
  end.

(** The pointing thread points twice, with its sleep in between. *)
Definition sample_pointing : list label :=
  sample_launch ++
  [Run Telescope Plain; Run Telescope Returns; Run Telescope Plain;
   Run Telescope Plain; Run Telescope Returns].

(** The spectrometer thread goes twice round its loop, the second response
    without a counter, and the third call raises. *)
Definition sample_spectra : list label :=
  sample_launch ++ sample_spectrum ++
  [Run Spectrometer Plain; Run Spectrometer Plain;
   Run Spectrometer (ReturnsDict [("status"%string, PyStr "busy")]);
   Run Spectrometer Plain; Run Spectrometer Plain;
   Run Spectrometer (Raises "timed out"%string)].

(** The writer saves the empty buffer and sleeps. *)
Definition sample_saving : list label :=
  sample_launch ++
  [Run Saver Plain; Run Saver Plain; Run Saver Written; Run Saver Plain].



(** Two states that differ at most in thread [t] and in what the trace
    records. *)
Definition same_except (t : tid) (s s' : sys) : Prop :=
  terminate_flag (shared s') = terminate_flag (shared s) /\
  data_lock (shared s') = data_lock (shared s) /\
  collected_data (shared s') = collected_data (shared s) /\
  DATA_FILE (shared s') = DATA_FILE (shared s) /\
  clock (shared s') = clock (shared s) /\
  mn s' = mn s /\
  (tid_eqb t Telescope = false -> tel s' = tel s) /\
  (tid_eqb t Spectrometer = false -> spec s' = spec s) /\
  (tid_eqb t Sdr = false -> sdr s' = sdr s) /\
  (tid_eqb t Saver = false -> saver s' = saver s).

(** What the SDR thread logs when the call it is about to make raises. *)
Definition sdr_failure (st : sdr_st) (e : exn) : list event :=
  match sd_at st with
  | SdNew => [EvSdrNew (Raise e); EvPrint (MsgSdrError e)]
  | _ => [EvCapture (sd_nsamples st) (sd_nblocks st) (Raise e);
          EvPrint (MsgSdrError e)]
  end.





(** The call made last explains the exception [e] of the input section:
    [input] at the end of the input, [float] or [int] on the answer typed,
    [sunpos] or [get_altaz]. *)
Definition explains (C : collaborators) (e : exn) (last : event) : Prop :=
  match last with
  | EvPrompt _ None => e = "EOF when reading a line"%string
  | EvPrompt p (Some a) =>
      match p with
      | AskSun | AskCoords => False
      | AskNsamples | AskNblocks => py_int C a = Raise e
      | _ => py_float C a = Raise e
      end
  | EvSunpos jd => sunpos C jd = Raise e
  | EvGetAltaz ra dec jd lat lon alt =>
      get_altaz C ra dec jd lat lon alt = Raise e
  | _ => False
  end.

(** The choices of lines 82-83, as the answers typed make them. *)
Definition chose_sun (answers : list string) : bool :=
  match answers with
  | a :: _ => says_yes a
  | [] => false
  end.

Definition chose_coords (answers : list string) : bool :=
  match answers with
  | a1 :: a2 :: _ => if says_yes a1 then false else says_yes a2
  | _ => false
  end.

(** The questions of lines 82-105 for each choice, in the order of the
    source. *)
Definition questions (sun coords : bool) : list prompt :=
  AskSun ::
  (if sun then []
   else AskCoords ::
        (if coords then [AskRa; AskDec] else [AskAltitude; AskAzimuth]))
  ++ [AskNsamples; AskNblocks; AskDuration].

(** The questions asked and what was typed at each ([None] at the end of
    the input). *)
Definition asked (evs : list event) : list (prompt * option string) :=
  flat_map (fun e => match e with
                     | EvPrompt p a => [(p, a)]
                     | _ => []
                     end) evs.

Definition typed (answers : list string) : list (option string) :=
  map Some answers ++ [None].

(** The ephemeris is for the Sun only, a conversion for the Sun or for
    RA/Dec coordinates only. *)
Definition fits_choice (sun coords : bool) (e : event) : bool :=
  match e with
  | EvJulianDate | EvSunpos _ | EvPrint (MsgSunPosition _ _) => sun
  | EvGetAltaz _ _ _ _ _ _ => sun || coords
  | _ => true
  end.

(** The target the answers ask for, lines 85-101. *)
Definition target_asked (C : collaborators) (answers : list string)
    (alt az : pyfloat) : Prop :=
  match answers with
  | a1 :: rest =>
      if says_yes a1 then
        exists ra dec,
          sunpos C (julian_date C) = Ok (ra, dec) /\
          get_altaz C ra dec (julian_date C)
            berkeley_lat berkeley_lon berkeley_alt = Ok (alt, az)
      else
        match rest with
        | a2 :: a3 :: a4 :: _ =>
            if says_yes a2 then
              exists ra dec,
                py_float C a3 = Ok ra /\ py_float C a4 = Ok dec /\
                get_altaz C ra dec (time_time C / 86400 + 2440587.5)
                  berkeley_lat berkeley_lon berkeley_alt = Ok (alt, az)
            else py_float C a3 = Ok alt /\ py_float C a4 = Ok az
        | _ => False
        end
  | [] => False
  end.

(** Only the pointing thread calls [interf.point], and at [alt], [az]. *)
Definition points_at (alt az : pyfloat) (te : tid * event) : bool :=
  match snd te with
  | EvPoint a z =>
      tid_eqb Telescope (fst te) && float_same a alt && float_same z az
  | _ => true
  end.

(** What stays as the input section left it while the threads run. *)
Definition input_kept (p : params) (sun coords : bool)
    (qs : list (prompt * option string)) (s : sys) : Prop :=
  forallb (points_at (p_target_alt p) (p_target_az p)) (trace (shared s))
    = true /\
  forallb (fun te => fits_choice sun coords (snd te)) (trace (shared s))
    = true /\
  asked (map snd (trace (shared s))) = qs.

(** Every character of [s] satisfies [P]. *)
Fixpoint all_chars (P : ascii -> bool) (s : string) : bool :=
  match s with
  | EmptyString => true
  | String c s' => P c && all_chars P s'
  end.

Definition is_ascii (c : ascii) : bool := (nat_of_ascii c <? 128)%nat.

(** The lines typed at the yes/no questions, which are the first and, when
    the Sun is declined, the second, are ASCII. *)
Definition ascii_choices (answers : list string) : bool :=
  forallb (all_chars is_ascii) (firstn 2 answers).

(** The word [yes] in every letter case. *)
Definition yes_words : list string :=
  ["yes"; "yeS"; "yEs"; "yES"; "Yes"; "YeS"; "YEs"; "YES"]%string.

(** Thread [t] has been started. *)
Definition started (t : tid) (s : sys) : bool :=
  let some {A : Type} (o : option A) :=
    match o with Some _ => true | None => false end in
  match t with
  | Main => true
  | Telescope => some (tel s)
  | Spectrometer => some (spec s)
  | Sdr => some (sdr s)
  | Saver => some (saver s)
  end.

(** Thread [t] stands at the entry of [with data_lock]. *)
Definition at_lock (t : tid) (s : sys) : bool :=
  match t with
  | Spectrometer =>
      match spec s with
      | Some st => match sp_at st with SpLock _ => true | _ => false end
      | None => false
      end
  | Sdr =>
      match sdr s with
      | Some st => match sd_at st with SdLock _ => true | _ => false end
      | None => false
      end
  | Saver =>
      match saver s with
      | Some SvLock => true
      | _ => false
      end
  | _ => false
  end.

(** The writer holds the lock and the spectrometer thread, with a response
    in hand, wants it. *)
Definition sample_waiting : list label :=
  sample_launch ++
  [Run Saver Plain; Run Saver Plain;
   Run Spectrometer Plain; Run Spectrometer Plain;
   Run Spectrometer (ReturnsDict [("acc_cnt"%string, PyInt 1)])].

(** What a loop is for: a pointing, an append, a write of the file. *)
Definition is_effect (e : event) : bool :=
  match e with
  | EvPoint _ _ | EvAppend _ | EvSave => true
  | _ => false
  end.

Definition effects (t : tid) (tr : list (tid * event)) : nat :=
  List.length (filter is_effect (events_of t tr)).

(** How many steps thread [t] has left, at most, once the flag is set: the
    rest of the iteration it is in and the test that ends its loop. *)
Definition steps_left (t : tid) (s : sys) : nat :=
  match t with
  | Main => match mn s with MnLeave => 2 | MnFinal => 1 | _ => 0 end
  | Telescope =>
      match tel s with
      | Some st =>
          match tel_at st with
          | TelPoint => 3 | TelSleep => 2 | TelCheck => 1 | TelDone => 0
          end
      | None => 0
      end
  | Spectrometer =>
      match spec s with
      | Some st =>
          match sp_at st with
          | SpRead => 5 | SpLock _ => 4 | SpAppend _ => 3
          | SpInit | SpSleep => 2 | SpCheck => 1 | SpDone => 0
          end
      | None => 0
      end
  | Sdr =>
      match sdr s with
      | Some st =>
          match sd_at st with
          | SdCapture => 5 | SdLock _ => 4 | SdAppend _ | SdNew => 3
          | SdInit | SdSleep => 2 | SdCheck => 1 | SdDone => 0
          end
      | None => 0
      end
  | Saver =>
      match saver s with
      | Some SvLock => 4 | Some SvWrite => 3 | Some SvSleep => 2
      | Some SvCheck => 1 | _ => 0
      end
  end.

(** Whether the iteration thread [t] is in still has its effect to come. *)
Definition effects_left (t : tid) (s : sys) : nat :=
  match t with
  | Main => 0
  | Telescope =>
      match tel s with
      | Some st => match tel_at st with TelPoint => 1 | _ => 0 end
      | None => 0
      end
  | Spectrometer =>
      match spec s with
      | Some st =>
          match sp_at st with
          | SpRead | SpLock _ | SpAppend _ => 1
          | _ => 0
          end
      | None => 0
      end
  | Sdr =>
      match sdr s with
      | Some st =>
          match sd_at st with
          | SdCapture | SdLock _ | SdAppend _ => 1
          | _ => 0
          end
      | None => 0
      end
  | Saver =>
      match saver s with
      | Some SvLock | Some SvWrite => 1
      | _ => 0
      end
  end.

Definition steps_of (t : tid) (ls : list label) : nat :=
  List.length (filter (label_of t) ls).

(** The flag is set and the main thread is past its wait. *)
Definition winding_down (s : sys) : Prop :=
  terminate_flag (shared s) = true /\ past_wait (mn s) = true.

(** The flag is set while the spectrometer thread is about to read... *)
Definition sample_flagged : list label :=
  sample_launch ++
  [Run Spectrometer Plain; Run Spectrometer Plain;
   Tick 5; Run Main Plain; Run Main Plain].

(** ... and the thread finishes its iteration and leaves its loop. *)
Definition sample_last_block : list label :=
  skipn 2 sample_spectrum ++
  [Run Spectrometer Plain; Run Spectrometer Plain].

(** * Properties *)

(** ** Tools *)

(** Case analysis on a step that was taken. *)
Ltac break_match H :=
  repeat match type of H with
    | context [match ?x with _ => _ end] =>
        match x with
        | context [match _ with _ => _ end] => fail 1
        | _ => destruct x eqn:?; try discriminate H
        end
    end.

Ltac step_cases H :=
  unfold step, main_step, main_handler, lift, point_telescope, collect_spectrometer_data, collect_sdr_data,
    save_data_periodically in H;
  cbn in H; break_match H;
  try (injection H as H; subst).

Arguments events_of : simpl never.

Lemma Qltb_lt (a b : Q) : Qltb a b = true <-> (a < b)%Q.
Proof.
  unfold Qltb. rewrite Qlt_alt.
  destruct (a ?= b)%Q; split; intro H; congruence.
Qed.

Lemma events_of_app (t : tid) (tr1 tr2 : list (tid * event)) :
  events_of t (tr1 ++ tr2) = events_of t tr1 ++ events_of t tr2.
Proof. unfold events_of. now rewrite filter_app, map_app. Qed.

Lemma events_of_other (t t' : tid) (es : list event) :
  tid_eqb t t' = false -> events_of t (map (pair t') es) = [].
Proof.
  intro H. unfold events_of. induction es as [|e es IH]; cbn; [reflexivity|].
  now rewrite H.
Qed.

Lemma forallb_tagged (P : event -> bool) (t : tid) (es : list event) :
  forallb (fun te => P (snd te)) (map (pair t) es) = forallb P es.
Proof. induction es as [|e es IH]; cbn; [reflexivity | now rewrite IH]. Qed.

Lemma events_of_nil (t : tid) : events_of t [] = [].
Proof. reflexivity. Qed.

Lemma events_of_cons (t t' : tid) (e : event) (tr : list (tid * event)) :
  events_of t ((t', e) :: tr) =
  if tid_eqb t t' then e :: events_of t tr else events_of t tr.
Proof. unfold events_of. cbn. now destruct (tid_eqb t t'). Qed.

Lemma Q_same_eq (a b : Q) : Q_same a b = true <-> a = b.
Proof.
  unfold Q_same. destruct a, b; cbn.
  rewrite andb_true_iff, Z.eqb_eq, Pos.eqb_eq.
  split; [intros [-> ->]; reflexivity | intro H; injection H; auto].
Qed.

Lemma float_same_eq (a b : pyfloat) : float_same a b = true <-> a = b.
Proof.
  destruct a, b; cbn; try (split; [discriminate|discriminate]);
    try (split; reflexivity).
  rewrite Q_same_eq. split; congruence.
Qed.

Lemma float_same_same (a : pyfloat) : float_same a a = true.
Proof. now apply float_same_eq. Qed.

Lemma pyval_eqb_eq : forall a b, pyval_eqb a b = true <-> a = b.
Proof.
  fix IH 1. intros a b.
  destruct a, b; cbn;
    try (split; [discriminate|discriminate]); try (split; reflexivity).
  - rewrite Bool.eqb_true_iff. split; congruence.
  - rewrite Z.eqb_eq. split; congruence.
  - rewrite float_same_eq. split; congruence.
  - rewrite String.eqb_eq. split; congruence.
  - revert l0. induction l as [|x xs IHl]; intros [|y ys];
      try (split; [discriminate|discriminate]); try (split; reflexivity).
    rewrite andb_true_iff, IH, IHl.
    split; [intros [-> H]; congruence | intro H; injection H; intros; subst; auto].
  - revert kvs0. induction kvs as [|[k x] xs IHl]; intros [|[k' y] ys];
      try (split; [discriminate|discriminate]); try (split; reflexivity).
    rewrite !andb_true_iff, IH, IHl, String.eqb_eq.
    split; [intros [[-> ->] H]; congruence
           | intro H; injection H; intros; subst; auto].
  - rewrite Nat.eqb_eq. split; congruence.
Qed.

Lemma pyval_eqb_refl (a : pyval) : pyval_eqb a a = true.
Proof. now apply pyval_eqb_eq. Qed.

Lemma monitor_app {X : Type} (next : X -> event -> option X) (x : X)
    (es1 es2 : list event) :
  monitor next x (es1 ++ es2) =
  match monitor next x es1 with
  | Some y => monitor next y es2
  | None => None
  end.
Proof.
  revert x. induction es1 as [|e es1 IH]; cbn; intro x; [reflexivity|].
  destruct (next x e); [apply IH | reflexivity].
Qed.

Section Runs.

Variable C : collaborators.

(** A property kept by every step is kept by every run. *)
Lemma run_invariant (I : sys -> Prop) :
  (forall l s s', I s -> step C l s = Some s' -> I s') ->
  forall ls s s', I s -> run C ls s = Some s' -> I s'.
Proof.
  intros Hstep ls. induction ls as [|l ls IH]; cbn; intros s s' Hs Hrun.
  - now injection Hrun as <-.
  - destruct (step C l s) as [s1|] eqn:E; [|discriminate].
    eapply IH; [|eassumption]. eapply Hstep; eassumption.
Qed.

Lemma step_flag (l : label) (s s' : sys) :
  step C l s = Some s' ->
  terminate_flag (shared s) = true -> terminate_flag (shared s') = true.
Proof.
  intros H F. destruct s as [w m t sp sd sv]. step_cases H; cbn in *; auto.
Qed.

Lemma run_flag (ls : list label) (s s' : sys) :
  run C ls s = Some s' ->
  terminate_flag (shared s) = true -> terminate_flag (shared s') = true.
Proof.
  intros H F. revert H.
  apply (run_invariant (fun s => terminate_flag (shared s) = true)); [|exact F].
  intros l s1 s2 F1 H1. eapply step_flag; eassumption.
Qed.

End Runs.

(** ** The termination signal *)

Section Termination.

Variable C : collaborators.

Lemma launch_ok_step (l : label) (s s' : sys) :
  launch_ok s = true -> step C l s = Some s' -> launch_ok s' = true.
Proof.
  intros L H. destruct s as [w m tl sp sd sv].
  step_cases H; cbn in *; auto;
    repeat match goal with
      | H : _ && _ = true |- _ => apply andb_prop in H; destruct H
      end;
    subst; cbn in *; auto; try discriminate;
    repeat match goal with
      | H : ?x = true |- context [?x] => rewrite H
      end; reflexivity.
Qed.

Lemma session_launch_ok (answers : list string) (ls : list label) (s : sys) :
  session C answers ls = Some s -> launch_ok s = true.
Proof.
  unfold session. apply run_invariant with (I := fun s => launch_ok s = true).
  - intros l s1 s2. apply launch_ok_step.
  - unfold boot. destruct (read_params C (answers, [])) as [[rest evs] [p|e]];
      reflexivity.
Qed.

(** With the flag set, a thread at its loop test or past its loop stays
    there or returns, and emits nothing but prints. *)
Lemma quiet_step (t : tid) (l : label) (s s' : sys) :
  launch_ok s = true ->
  terminate_flag (shared s) = true ->
  at_check t s || returned t s = true ->
  step C l s = Some s' ->
  at_check t s' || returned t s' = true /\
  exists new,
    events_of t (trace (shared s')) = events_of t (trace (shared s)) ++ new /\
    forallb harmless new = true.
Proof.
  intros L F Q H. destruct s as [w m tl sp sd sv].
  destruct t; cbn in Q; try discriminate;
    step_cases H; cbn in *;
    repeat match goal with
      | E : ?x = _, Q : context [match ?x with _ => _ end] |- _ =>
          rewrite E in Q; cbn in Q
      end;
    try discriminate; try congruence.
  all: try (split; [ cbn; try rewrite Q; try reflexivity; try assumption
            | first [ exists []; rewrite app_nil_r; split; reflexivity
                    | rewrite events_of_app; eexists; split;
                      [reflexivity | reflexivity] ] ]).
  all: exfalso;
    repeat match goal with x : option _ |- _ => destruct x end;
    cbn in *; try discriminate;
    match goal with
    | H : _ && negb (terminate_flag _) = true |- _ =>
        rewrite F, andb_false_r in H; discriminate
    end.
Qed.

Lemma quiet_run (t : tid) (ls : list label) (s s' : sys) :
  launch_ok s = true ->
  terminate_flag (shared s) = true ->
  at_check t s || returned t s = true ->
  run C ls s = Some s' ->
  exists new,
    events_of t (trace (shared s')) = events_of t (trace (shared s)) ++ new /\
    forallb harmless new = true.
Proof.
  revert s. induction ls as [|l ls IH]; cbn; intros s L F Q H.
  - injection H as <-. exists []. now rewrite app_nil_r.
  - destruct (step C l s) as [s1|] eqn:E; [|discriminate].
    destruct (quiet_step t l s L F Q E) as [Q1 [new1 [E1 H1]]].
    assert (L1 : launch_ok s1 = true) by (eapply launch_ok_step; eassumption).
    assert (F1 : terminate_flag (shared s1) = true) by (eapply step_flag; eassumption).
    destruct (IH s1 L1 F1 Q1 H) as [new2 [E2 H2]].
    exists (new1 ++ new2). split.
    + now rewrite E2, E1, app_assoc.
    + now rewrite forallb_app, H1, H2.
Qed.

(** C2.  Once [terminate_flag] is set it stays set in every execution,
    and a loop that finds it set at the test of its [while] makes no
    further hardware call and appends nothing more to the buffer. *)
Theorem terminate_flag_is_final
    (answers : list string) (ls0 ls : list label) (s s' : sys) :
  session C answers ls0 = Some s ->
  terminate_flag (shared s) = true ->
  run C ls s = Some s' ->
  terminate_flag (shared s') = true /\
  forall t, at_check t s = true ->
    exists new,
      events_of t (trace (shared s')) =
        events_of t (trace (shared s)) ++ new /\
      forallb harmless new = true.
Proof.
  intros Hs F H. split; [eapply run_flag; eassumption|].
  intros t Q. apply quiet_run with (ls := ls); auto.
  - eapply session_launch_ok; eassumption.
  - now rewrite Q.
Qed.

End Termination.

Lemma terminate_flag_is_final_witness :
  let s := state_after sample_answers sample_timeout in
  let s' := state_after sample_answers (sample_timeout ++ [Run Telescope Plain]) in
  terminate_flag (shared s') = true /\
  forall t, at_check t s = true ->
    exists new,
      events_of t (trace (shared s')) = events_of t (trace (shared s)) ++ new /\
      forallb harmless new = true.
Proof.
  apply (@terminate_flag_is_final sample sample_answers sample_timeout
           [Run Telescope Plain]
           (state_after sample_answers sample_timeout)
           (state_after sample_answers
              (sample_timeout ++ [Run Telescope Plain])));
    vm_compute; reflexivity.
Defined.

(** ** The shared buffer *)

Lemma appended_app (tr1 tr2 : list (tid * event)) :
  appended (tr1 ++ tr2) = appended tr1 ++ appended tr2.
Proof.
  induction tr1 as [|[t e] tr1 IH]; cbn; [reflexivity|].
  destruct e; cbn; now rewrite IH.
Qed.

Lemma appended_length (tr : list (tid * event)) :
  List.length (appended tr) = count_appends tr.
Proof.
  unfold count_appends.
  induction tr as [|[t e] tr IH]; cbn; [reflexivity|].
  destruct e; cbn; now rewrite IH.
Qed.

Lemma appended_main_only (evs : list event) :
  forallb (fun e => negb (is_append e)) evs = true ->
  appended (map (pair Main) evs) = [].
Proof.
  induction evs as [|e evs IH]; cbn; [reflexivity|].
  destruct e; cbn; auto; discriminate.
Qed.

Section BufferSteps.

Variable C : collaborators.

(** One step appends well-formed records at the end of the buffer, as many
    as it logs, and touches nothing else in it. *)
Lemma step_buffer (l : label) (s s' : sys) :
  step C l s = Some s' ->
  exists more,
    collected_data (shared s') = collected_data (shared s) ++ more /\
    appended (trace (shared s')) = appended (trace (shared s)) ++ more /\
    forallb well_formed_record more = true.
Proof.
  intro H. destruct s as [w m tl sp sd sv].
  step_cases H; cbn [shared collected_data trace emit set_lock set_file
                     set_flag append_data advance with_main with_shared];
    rewrite ?appended_app;
    first [ exists []; rewrite !app_nil_r; repeat split; reflexivity
          | eexists; repeat split; reflexivity ].
Qed.

Lemma run_buffer (ls : list label) (s s' : sys) :
  run C ls s = Some s' ->
  exists more,
    collected_data (shared s') = collected_data (shared s) ++ more /\
    appended (trace (shared s')) = appended (trace (shared s)) ++ more /\
    forallb well_formed_record more = true.
Proof.
  revert s. induction ls as [|l ls IH]; cbn; intros s H.
  - injection H as <-. exists []. now rewrite !app_nil_r.
  - destruct (step C l s) as [s1|] eqn:E; [|discriminate].
    destruct (step_buffer l s E) as [m1 [B1 [A1 W1]]].
    destruct (IH s1 H) as [m2 [B2 [A2 W2]]].
    exists (m1 ++ m2). rewrite B2, B1, A2, A1, !app_assoc, forallb_app, W1, W2.
    now repeat split.
Qed.

End BufferSteps.

(** ** The input section *)

Section InputSection.

Variable C : collaborators.
Variables always if_ok : event -> bool.

Lemma emits_ret {A : Type} (a : A) : io_emits always if_ok (ret a).
Proof. intro st. exists []. cbn. now rewrite app_nil_r. Qed.

Lemma emits_raise_or_ret {A : Type} (r : res A) :
  io_emits always if_ok (raise_or_ret r).
Proof. intro st. exists []. cbn. now rewrite app_nil_r. Qed.

Lemma emits_bind {A B : Type} (m : io A) (k : A -> io B) :
  io_emits always if_ok m ->
  (forall a, io_emits always if_ok (k a)) ->
  io_emits always if_ok (bind m k).
Proof.
  intros Hm Hk st. unfold bind.
  destruct (Hm st) as [n1 [E1 [P1 R1]]].
  destruct (m st) as [st1 [a|e]] eqn:Em; cbn in *.
  - destruct (Hk a st1) as [n2 [E2 [P2 R2]]].
    exists (n1 ++ n2). rewrite E2, E1, app_assoc, !forallb_app, P1, P2.
    repeat split. intro Hr. now rewrite R1, R2.
  - exists n1. repeat split; auto; discriminate.
Qed.

Lemma emits_log (e : event) :
  always e = true -> if_ok e = true -> io_emits always if_ok (log e).
Proof.
  intros Ha Hi [answers evs]. exists [e]. cbn. now rewrite Ha, Hi.
Qed.

End InputSection.

Section InputSectionOfScript.

Variable C : collaborators.

Lemma emits_ask (p : prompt) :
  rejects C p = (fun _ => false) ->
  io_emits setup_event (accepted C) (input p).
Proof.
  intros Hp [[|a rest] evs]; cbn.
  - exists [EvPrompt p None]. repeat split; discriminate.
  - exists [EvPrompt p (Some a)]. cbn. now rewrite Hp.
Qed.

Lemma emits_ask_float (p : prompt) :
  rejects C p = (fun a => is_raise (py_float C a)) ->
  io_emits setup_event (accepted C) (ask_float C p).
Proof.
  intros Hp [[|a rest] evs]; unfold ask_float, bind; cbn.
  - exists [EvPrompt p None]. repeat split; discriminate.
  - exists [EvPrompt p (Some a)]. cbn. rewrite Hp.
    destruct (py_float C a); cbn; repeat split; auto; discriminate.
Qed.

Lemma emits_ask_int (p : prompt) :
  rejects C p = (fun a => is_raise (py_int C a)) ->
  io_emits setup_event (accepted C) (ask_int C p).
Proof.
  intros Hp [[|a rest] evs]; unfold ask_int, bind; cbn.
  - exists [EvPrompt p None]. repeat split; discriminate.
  - exists [EvPrompt p (Some a)]. cbn. rewrite Hp.
    destruct (py_int C a); cbn; repeat split; auto; discriminate.
Qed.

Lemma emits_call_get_altaz (ra dec : pyfloat) (jd : Q) :
  io_emits setup_event (accepted C)
    (call_get_altaz C ra dec jd berkeley_lat berkeley_lon berkeley_alt).
Proof.
  unfold call_get_altaz. apply emits_bind.
  - apply emits_log; reflexivity.
  - intros _. apply emits_raise_or_ret.
Qed.

Ltac emits :=
  repeat first
    [ apply emits_ask; reflexivity
    | apply emits_ask_float; reflexivity
    | apply emits_ask_int; reflexivity
    | apply emits_call_get_altaz
    | apply emits_log; reflexivity
    | apply emits_ret
    | apply emits_raise_or_ret
    | match goal with |- context [match ?x with _ => _ end] =>
        destruct x end
    | apply emits_bind; [|intros ?] ].

Lemma emits_read_target (observe_sun process_coords : bool) :
  io_emits setup_event (accepted C)
    (read_target C observe_sun process_coords).
Proof. unfold read_target. emits. Qed.

Lemma emits_read_params : io_emits setup_event (accepted C) (read_params C).
Proof.
  unfold read_params.
  repeat first [ apply emits_read_target | progress emits ].
Qed.

Lemma setup_events_ok (answers : list string) :
  forallb setup_event (setup_events C answers) = true /\
  (is_raise (setup_result C answers) = false ->
   forallb (accepted C) (setup_events C answers) = true).
Proof.
  destruct (emits_read_params (answers, [])) as [new [E [P R]]].
  unfold setup_events, setup_result. cbn in E. rewrite E. auto.
Qed.

End InputSectionOfScript.

(** ** The buffer in a session *)

Lemma setup_event_no_append (evs : list event) :
  forallb setup_event evs = true ->
  forallb (fun e => negb (is_append e)) evs = true.
Proof.
  induction evs as [|e evs IH]; cbn; [reflexivity|].
  intro H. apply andb_prop in H. destruct H as [He H].
  rewrite (IH H). now destruct e.
Qed.

Lemma boot_shape (C : collaborators) (answers : list string) :
  (exists p, setup_result C answers = Ok p /\
     boot C answers =
       Sys (initial_world C (setup_events C answers)) (MnStart p 0)
           None None None None) \/
  (exists e, setup_result C answers = Raise e /\
     boot C answers =
       Sys (initial_world C
              (setup_events C answers ++ [EvPrint (MsgInputError e); EvExit]))
           MnExit None None None None).
Proof.
  unfold boot, setup_result, setup_events.
  destruct (read_params C (answers, [])) as [[rest evs] [p|e]]; cbn;
    [left | right]; eexists; split; reflexivity.
Qed.

Lemma boot_buffer (C : collaborators) (answers : list string) :
  collected_data (shared (boot C answers)) = [] /\
  appended (trace (shared (boot C answers))) = [].
Proof.
  destruct (setup_events_ok C answers) as [P _].
  apply setup_event_no_append in P.
  destruct (boot_shape C answers) as [[p [_ ->]]|[e [_ ->]]]; cbn;
    split; try reflexivity; apply appended_main_only; auto.
  now rewrite forallb_app, P.
Qed.

Section Buffer.

Variable C : collaborators.

(** C4.  In every session the buffer holds exactly the records appended so
    far, in order, hence as many records as there were appends; each record
    has a [time] field and exactly one of the keys [spectra] and [sdr]; and
    whatever happens next, the records already there stay as they are at
    the front of the buffer. *)
Theorem buffer_is_append_only
    (answers : list string) (ls0 ls : list label) (s s' : sys) :
  session C answers ls0 = Some s ->
  run C ls s = Some s' ->
  collected_data (shared s) = appended (trace (shared s)) /\
  List.length (collected_data (shared s)) = count_appends (trace (shared s)) /\
  forallb well_formed_record (collected_data (shared s)) = true /\
  firstn (List.length (collected_data (shared s))) (collected_data (shared s'))
    = collected_data (shared s).
Proof.
  intros Hs H.
  destruct (run_buffer C ls0 _ Hs) as [m0 [B0 [A0 W0]]].
  destruct (boot_buffer C answers) as [Bb Ab].
  rewrite Bb in B0. rewrite Ab in A0. cbn in B0, A0.
  assert (E : collected_data (shared s) = appended (trace (shared s)))
    by congruence.
  repeat split.
  - exact E.
  - rewrite E. apply appended_length.
  - now rewrite B0.
  - destruct (run_buffer C ls _ H) as [m1 [B1 _]].
    rewrite B1, firstn_app, Nat.sub_diag, firstn_all. cbn.
    now rewrite app_nil_r.
Qed.

End Buffer.

Lemma buffer_is_append_only_witness :
  let s := state_after sample_answers (sample_launch ++ sample_spectrum) in
  let s' := state_after sample_answers
              (sample_launch ++ sample_spectrum ++ sample_capture) in
  collected_data (shared s) = appended (trace (shared s)) /\
  List.length (collected_data (shared s)) = count_appends (trace (shared s)) /\
  forallb well_formed_record (collected_data (shared s)) = true /\
  firstn (List.length (collected_data (shared s))) (collected_data (shared s'))
    = collected_data (shared s).
Proof.
  apply (@buffer_is_append_only sample sample_answers
           (sample_launch ++ sample_spectrum) sample_capture
           (state_after sample_answers (sample_launch ++ sample_spectrum))
           (state_after sample_answers
              (sample_launch ++ sample_spectrum ++ sample_capture)));
    vm_compute; reflexivity.
Defined.

(** ** The other threads *)

Section Frames.

Variable C : collaborators.

(** A step of another thread, of the clock or of a handler leaves an
    acquisition thread where it stands, with what it holds. *)
Lemma others_keep (l : label) (s s' : sys) :
  launch_ok s = true -> step C l s = Some s' ->
  (label_of Spectrometer l = false -> spec s <> None -> spec s' = spec s) /\
  (label_of Sdr l = false -> sdr s <> None -> sdr s' = sdr s).
Proof.
  intros L H. destruct s as [w m tl sp sd sv].
  step_cases H; cbn [spec sdr label_of tid_eqb with_main with_shared] in *;
    split; intros Hl Hn; try discriminate; try reflexivity;
    cbn in L; rewrite ?andb_false_r in L;
    repeat match goal with
      | H : (_ && _)%bool = true |- _ => apply andb_prop in H; destruct H
      end;
    try (destruct sp; [discriminate | congruence]);
    try (destruct sd; [discriminate | congruence]).
Qed.

End Frames.

(** ** The spectrometer loop *)

Ltac norm_events :=
  cbn [shared trace emit set_lock set_file set_flag append_data advance
       with_main with_shared map];
  rewrite ?events_of_app, ?events_of_cons, ?events_of_nil;
  cbn [tid_eqb]; rewrite ?app_nil_r.

Section SpectrometerLoop.

Variable C : collaborators.

Lemma is_spectra_record_refl (ts : string) (data : dict) :
  is_spectra_record data (spectra_record ts data) = true.
Proof. unfold is_spectra_record, spectra_record. apply pyval_eqb_refl. Qed.

Lemma spectro_step (l : label) (s s' : sys) :
  launch_ok s = true ->
  step C l s = Some s' ->
  monitor spectro_next None (events_of Spectrometer (trace (shared s)))
    = Some (spectro_due s) ->
  monitor spectro_next None (events_of Spectrometer (trace (shared s')))
    = Some (spectro_due s').
Proof.
  intros L H M. destruct s as [w m tl sp sd sv]. unfold spectro_due in *.
  step_cases H; cbn [shared spec] in *; norm_events;
    rewrite ?monitor_app, ?M; cbn [sp_at sp_goto];
    repeat match goal with
      | E : sp_at ?st = _ |- _ => rewrite E in *
      end;
    try assumption; try reflexivity.
  - cbn in L. destruct sp; [discriminate | reflexivity].
  - cbn. now rewrite Heqb0.
  - cbn. now rewrite Heqb0.
  - cbn [monitor spectro_next]. now rewrite is_spectra_record_refl.
Qed.

Lemma boot_no_thread_events (answers : list string) (t : tid) :
  t <> Main -> events_of t (trace (shared (boot C answers))) = [].
Proof.
  intro Ht.
  destruct (boot_shape C answers) as [[p [_ ->]]|[e [_ ->]]]; cbn;
    apply events_of_other; now destruct t.
Qed.

(** C3.  In every session the events of the spectrometer thread follow
    [spectro_next]: an append is made only for a response that has the
    field [acc_cnt], right after that response and with that response as
    its [spectra] payload, whatever the value of the counter.  And every
    such append is made: from wherever the thread stands its next step is
    there to be taken and is the one of the source.  It reads its start
    time and tests duration and flag; whatever dict [snap.read_data]
    returns is taken; with the field the thread goes for the lock, holding
    the response, gets the lock as soon as it is free, and then puts the
    record at the end of the buffer; without the field it goes straight to
    its sleep and the buffer stays as it is.  No step of another thread
    changes where the thread stands or the response it holds. *)
Theorem spectrometer_appends_iff_acc_cnt
    (answers : list string) (ls : list label) (s : sys) :
  session C answers ls = Some s ->
  monitor spectro_next None (events_of Spectrometer (trace (shared s)))
    = Some (spectro_due s) /\
  (forall st,
      spec s = Some st -> alive s = true ->
      match sp_at st with
      | SpInit =>
          exists s' st',
            step C (Run Spectrometer Plain) s = Some s' /\
            spec s' = Some st' /\ sp_at st' = SpCheck /\
            sp_prev_cnt st' = PyNone /\
            sp_start_time st' = clock (shared s) /\
            shared s' = shared s
      | SpCheck =>
          exists s' st',
            step C (Run Spectrometer Plain) s = Some s' /\
            spec s' = Some st' /\
            if lt_float (clock (shared s) - sp_start_time st) (sp_duration st)
               && negb (terminate_flag (shared s))
            then sp_at st' = SpRead /\ shared s' = shared s
            else sp_at st' = SpDone /\
                 shared s' =
                   emit Spectrometer [EvPrint MsgSpecFinished] (shared s)
      | SpRead =>
          forall data,
          exists s' st',
            step C (Run Spectrometer (ReturnsDict data)) s = Some s' /\
            spec s' = Some st' /\
            sp_at st' =
              (if has_key "acc_cnt" data then SpLock data else SpSleep) /\
            events_of Spectrometer (trace (shared s')) =
              events_of Spectrometer (trace (shared s)) ++
              [EvReadData (sp_prev_cnt st) (Ok data)] /\
            collected_data (shared s') = collected_data (shared s)
      | SpLock data =>
          match data_lock (shared s) with
          | None =>
              exists s' st',
                step C (Run Spectrometer Plain) s = Some s' /\
                spec s' = Some st' /\ sp_at st' = SpAppend data /\
                data_lock (shared s') = Some Spectrometer /\
                collected_data (shared s') = collected_data (shared s)
          | Some _ => step C (Run Spectrometer Plain) s = None
          end
      | SpAppend data =>
          forall ts,
          exists s' st',
            step C (Run Spectrometer (Utc ts)) s = Some s' /\
            spec s' = Some st' /\ sp_at st' = SpSleep /\
            collected_data (shared s') =
              collected_data (shared s) ++ [spectra_record ts data] /\
            data_lock (shared s') = None
      | SpSleep =>
          exists s' st',
            step C (Run Spectrometer Plain) s = Some s' /\
            spec s' = Some st' /\ sp_at st' = SpCheck /\
            events_of Spectrometer (trace (shared s')) =
              events_of Spectrometer (trace (shared s)) ++ [EvSleep 1] /\
            collected_data (shared s') = collected_data (shared s)
      | SpDone => forall i, step C (Run Spectrometer i) s = None
      end) /\
  (forall l s',
      label_of Spectrometer l = false -> step C l s = Some s' ->
      spec s <> None -> spec s' = spec s).
Proof.
  intro Hs.
  assert (L : launch_ok s = true) by (eapply session_launch_ok; eassumption).
  split; [|split].
  - cut (launch_ok s = true /\
         monitor spectro_next None (events_of Spectrometer (trace (shared s)))
         = Some (spectro_due s)); [tauto|].
    revert Hs. unfold session.
    apply run_invariant with
      (I := fun s => launch_ok s = true /\
                     monitor spectro_next None
                       (events_of Spectrometer (trace (shared s)))
                     = Some (spectro_due s)).
    + intros l s1 s2 [L1 M] H. split.
      * eapply launch_ok_step; eassumption.
      * eapply spectro_step; eassumption.
    + split.
      * apply session_launch_ok with (C := C) (answers := answers) (ls := []).
        reflexivity.
      * rewrite boot_no_thread_events by discriminate.
        destruct (boot_shape C answers) as [[p [_ ->]]|[e [_ ->]]];
          reflexivity.
  - intros st Hst Ha. destruct s as [w m tl sp sd sv].
    cbn [spec shared] in *. subst sp.
    destruct (sp_at st) eqn:Hpc.
    + unfold step. rewrite Ha. cbn.
      unfold collect_spectrometer_data. rewrite Hpc.
      eexists; eexists. repeat split; reflexivity.
    + unfold step. rewrite Ha. cbn.
      unfold collect_spectrometer_data. rewrite Hpc.
      destruct (lt_float (clock w - sp_start_time st) (sp_duration st)
                && negb (terminate_flag w)); cbn;
        eexists; eexists; repeat split; reflexivity.
    + intro data. unfold step. rewrite Ha. cbn.
      unfold collect_spectrometer_data. rewrite Hpc.
      destruct (has_key "acc_cnt" data); cbn;
        eexists; eexists; (split; [reflexivity|]);
        (split; [reflexivity|]); (split; [reflexivity|]);
        norm_events; split; reflexivity.
    + destruct (data_lock w) eqn:D; unfold step; rewrite Ha; cbn;
        unfold collect_spectrometer_data; rewrite Hpc, D; [reflexivity|].
      eexists; eexists. repeat split; reflexivity.
    + intro ts. unfold step. rewrite Ha. cbn.
      unfold collect_spectrometer_data. rewrite Hpc.
      eexists; eexists. repeat split; reflexivity.
    + unfold step. rewrite Ha. cbn.
      unfold collect_spectrometer_data. rewrite Hpc.
      eexists; eexists. (split; [reflexivity|]).
      (split; [reflexivity|]). (split; [reflexivity|]).
      norm_events. split; reflexivity.
    + intro i. unfold step. rewrite Ha. cbn.
      unfold collect_spectrometer_data. rewrite Hpc. now destruct i.
  - intros l s' Hl H Hn.
    destruct (@others_keep C l s s' L H) as [K _]. now apply K.
Qed.

End SpectrometerLoop.

Lemma spectrometer_appends_iff_acc_cnt_witness :
  let s := state_after sample_answers
             (sample_launch ++ firstn 2 sample_spectrum) in
  spec s = Some (SpecSt SpRead (Fin 3) PyNone 1700000000) /\
  alive s = true /\
  monitor spectro_next None (events_of Spectrometer (trace (shared s)))
    = Some (spectro_due s) /\
  (forall st,
      spec s = Some st -> alive s = true ->
      match sp_at st with
      | SpInit =>
          exists s' st',
            step sample (Run Spectrometer Plain) s = Some s' /\
            spec s' = Some st' /\ sp_at st' = SpCheck /\
            sp_prev_cnt st' = PyNone /\
            sp_start_time st' = clock (shared s) /\
            shared s' = shared s
      | SpCheck =>
          exists s' st',
            step sample (Run Spectrometer Plain) s = Some s' /\
            spec s' = Some st' /\
            if lt_float (clock (shared s) - sp_start_time st) (sp_duration st)
               && negb (terminate_flag (shared s))
            then sp_at st' = SpRead /\ shared s' = shared s
            else sp_at st' = SpDone /\
                 shared s' =
                   emit Spectrometer [EvPrint MsgSpecFinished] (shared s)
      | SpRead =>
          forall data,
          exists s' st',
            step sample (Run Spectrometer (ReturnsDict data)) s = Some s' /\
            spec s' = Some st' /\
            sp_at st' =
              (if has_key "acc_cnt" data then SpLock data else SpSleep) /\
            events_of Spectrometer (trace (shared s')) =
              events_of Spectrometer (trace (shared s)) ++
              [EvReadData (sp_prev_cnt st) (Ok data)] /\
            collected_data (shared s') = collected_data (shared s)
      | SpLock data =>
          match data_lock (shared s) with
          | None =>
              exists s' st',
                step sample (Run Spectrometer Plain) s = Some s' /\
                spec s' = Some st' /\ sp_at st' = SpAppend data /\
                data_lock (shared s') = Some Spectrometer /\
                collected_data (shared s') = collected_data (shared s)
          | Some _ => step sample (Run Spectrometer Plain) s = None
          end
      | SpAppend data =>
          forall ts,
          exists s' st',
            step sample (Run Spectrometer (Utc ts)) s = Some s' /\
            spec s' = Some st' /\ sp_at st' = SpSleep /\
            collected_data (shared s') =
              collected_data (shared s) ++ [spectra_record ts data] /\
            data_lock (shared s') = None
      | SpSleep =>
          exists s' st',
            step sample (Run Spectrometer Plain) s = Some s' /\
            spec s' = Some st' /\ sp_at st' = SpCheck /\
            events_of Spectrometer (trace (shared s')) =
              events_of Spectrometer (trace (shared s)) ++ [EvSleep 1] /\
            collected_data (shared s') = collected_data (shared s)
      | SpDone => forall i, step sample (Run Spectrometer i) s = None
      end) /\
  (forall l s',
      label_of Spectrometer l = false -> step sample l s = Some s' ->
      spec s <> None -> spec s' = spec s).
Proof.
  split; [vm_compute; reflexivity|]. split; [vm_compute; reflexivity|].
  apply (@spectrometer_appends_iff_acc_cnt sample sample_answers
           (sample_launch ++ firstn 2 sample_spectrum)
           (state_after sample_answers
              (sample_launch ++ firstn 2 sample_spectrum))).
  vm_compute. reflexivity.
Defined.

(** ** The parameters of the threads *)

Section Parameters.

Variable C : collaborators.

Lemma runs_with_step (p : params) (l : label) (s s' : sys) :
  runs_with p s -> step C l s = Some s' -> runs_with p s'.
Proof.
  intros (Hm & Ht & Hsp & Hsd) H. destruct s as [w m tl sp sd sv].
  cbn in *.
  step_cases H; unfold runs_with; cbn;
    repeat match goal with
      | |- _ /\ _ => split
      end;
    intros;
    repeat match goal with
      | H : Some _ = Some _ |- _ => injection H as H; subst
      | H : MnStart _ _ = MnStart _ _ |- _ => injection H as H; subst
      end;
    try discriminate;
    try (specialize (Hm _ _ eq_refl); subst);
    cbn; eauto;
    try (apply Ht; reflexivity);
    try (apply Hsp; reflexivity);
    try (apply Hsd; reflexivity).
Qed.

Lemma session_runs_with (answers : list string) (p : params)
    (ls : list label) (s : sys) :
  setup_result C answers = Ok p ->
  session C answers ls = Some s ->
  runs_with p s.
Proof.
  intros Hp. unfold session.
  apply run_invariant with (I := runs_with p).
  - intros l s1 s2. apply runs_with_step.
  - destruct (boot_shape C answers) as [[p' [E ->]]|[e [E ->]]];
      rewrite E in Hp; [injection Hp as ->|discriminate].
    unfold runs_with; cbn. repeat split; intros; try discriminate.
    now injection H as -> _.
Qed.

End Parameters.

(** ** The SDR loop *)

Section SdrLoop.

Variable C : collaborators.





End SdrLoop.


(** ** A duration that is not positive *)

Lemma no_time_left (d : pyfloat) (e : Q) :
  float_le d 0 = true -> lt_float e d = true -> (e < 0)%Q.
Proof.
  destruct d as [q| | |]; cbn; try discriminate.
  intros H T. apply Qle_bool_iff in H. apply Qltb_lt in T. lra.
Qed.

Section NoDuration.

Variable C : collaborators.
Variable p : params.

(** [duration <= 0], as Python compares floats. *)
Hypothesis no_time : float_le (p_duration p) 0 = true.

Lemma spectro_skips_step (l : label) (s s' : sys) :
  launch_ok s = true ->
  runs_with p s ->
  step C l s = Some s' ->
  spectro_skips s -> spectro_skips s'.
Proof.
  intros L (_ & _ & Hsp & _) H I. destruct s as [w m tl sp sd sv].
  unfold spectro_skips in *.
  step_cases H; cbn [shared spec] in *; norm_events;
    cbn [sp_at sp_goto sp_start_time clock];
    repeat match goal with
      | E : sp_at ?st = _ |- _ => rewrite E in *
      end;
    try assumption; try contradiction.
  - cbn in L. destruct sp; [discriminate | assumption].
  - split; [assumption | apply Qle_refl].
  - destruct I as [_ I]. apply andb_prop in Heqb0. destruct Heqb0 as [T _].
    rewrite (Hsp _ eq_refl) in T. pose proof (no_time_left _ _ no_time T).
    lra.
  - destruct I as [-> _]. reflexivity.
  - cbn. destruct sp as [st|]; [|assumption].
    destruct (sp_at st); try assumption.
    destruct I as [I1 I2]. split; [assumption|].
    apply Qle_bool_iff in Heqb0. cbn. lra.
Qed.

Lemma sdr_skips_step (l : label) (s s' : sys) :
  launch_ok s = true ->
  runs_with p s ->
  step C l s = Some s' ->
  sdr_skips s -> sdr_skips s'.
Proof.
  intros L (_ & _ & _ & Hsd) H I. destruct s as [w m tl sp sd sv].
  unfold sdr_skips in *.
  step_cases H; cbn [shared sdr] in *; norm_events;
    cbn [sd_at sd_goto sd_start_time clock];
    repeat match goal with
      | E : sd_at ?st = _ |- _ => rewrite E in *
      end;
    try assumption; try contradiction.
  - cbn in L. apply andb_prop in L. destruct L as [L _].
    destruct sd; [discriminate | assumption].
  - now rewrite I.
  - right. exists e. now rewrite I.
  - split; [assumption | apply Qle_refl].
  - destruct I as [_ I]. apply andb_prop in Heqb0. destruct Heqb0 as [T _].
    destruct (Hsd _ eq_refl) as (_ & _ & Hd).
    rewrite Hd in T. pose proof (no_time_left _ _ no_time T). lra.
  - destruct I as [-> _]. now left.
  - cbn. destruct sd as [st|]; [|assumption].
    destruct (sd_at st); try assumption.
    destruct I as [I1 I2]. split; [assumption|].
    apply Qle_bool_iff in Heqb0. cbn. lra.
Qed.

(** C9.  When the duration typed in is zero or negative, the spectrometer
    thread and the SDR thread never read, capture or append: all the
    spectrometer thread ever does is print its completion line, and all
    the SDR thread ever does is build its handle and print its completion
    line (or the error line, when building the handle raised). *)
Theorem no_duration_no_acquisition
    (answers : list string) (ls : list label) (s : sys) :
  setup_result C answers = Ok p ->
  session C answers ls = Some s ->
  let spectro := events_of Spectrometer (trace (shared s)) in
  let radio := events_of Sdr (trace (shared s)) in
  forallb (fun e => negb (is_acquisition e) && negb (is_append e))
          (spectro ++ radio) = true /\
  (spectro = [] \/ spectro = [EvPrint MsgSpecFinished]) /\
  (returned Spectrometer s = true -> spectro = [EvPrint MsgSpecFinished]) /\
  (returned Sdr s = true ->
     radio = [EvSdrNew (Ok tt); EvPrint MsgSdrFinished] \/
     exists e, radio = [EvSdrNew (Raise e); EvPrint (MsgSdrError e)]).
Proof.
  intros Hp Hs.
  assert (I : launch_ok s = true /\ runs_with p s /\
              spectro_skips s /\ sdr_skips s).
  { revert Hs. unfold session.
    apply run_invariant with
      (I := fun s => launch_ok s = true /\ runs_with p s /\
                     spectro_skips s /\ sdr_skips s).
    - intros l s1 s2 (L & R & I1 & I2) H. split; [|split; [|split]].
      + eapply launch_ok_step; eassumption.
      + eapply runs_with_step; eassumption.
      + eapply spectro_skips_step; eassumption.
      + eapply sdr_skips_step; eassumption.
    - split; [|split; [|split]].
      + apply session_launch_ok with (C := C) (answers := answers) (ls := []).
        reflexivity.
      + apply session_runs_with with (C := C) (answers := answers) (ls := []);
          [assumption | reflexivity].
      + unfold spectro_skips.
        rewrite (@boot_no_thread_events C answers Spectrometer)
          by discriminate.
        destruct (boot_shape C answers) as [[p' [_ ->]]|[e [_ ->]]];
          reflexivity.
      + unfold sdr_skips.
        rewrite (@boot_no_thread_events C answers Sdr) by discriminate.
        destruct (boot_shape C answers) as [[p' [_ ->]]|[e [_ ->]]];
          reflexivity. }
  destruct I as (_ & _ & I1 & I2). cbv zeta.
  unfold spectro_skips in I1. unfold sdr_skips in I2. unfold returned.
  destruct (spec s) as [st1|]; [destruct (sp_at st1)|];
    try contradiction;
    destruct (sdr s) as [st2|]; [destruct (sd_at st2)| |destruct (sd_at st2)|
                                | destruct (sd_at st2) | |destruct (sd_at st2)|
                                ];
    try contradiction;
    repeat match goal with
      | H : _ /\ _ |- _ => destruct H
      | H : _ \/ _ |- _ => destruct H
      | H : exists _, _ |- _ => destruct H
      end;
    repeat match goal with
      | H : events_of _ _ = _ |- _ => rewrite H
      end;
    repeat split; auto; try discriminate; eauto.
Qed.

End NoDuration.

Lemma no_duration_no_acquisition_witness :
  let s := state_after zero_answers sample_skip in
  let spectro := events_of Spectrometer (trace (shared s)) in
  let radio := events_of Sdr (trace (shared s)) in
  forallb (fun e => negb (is_acquisition e) && negb (is_append e))
          (spectro ++ radio) = true /\
  (spectro = [] \/ spectro = [EvPrint MsgSpecFinished]) /\
  (returned Spectrometer s = true -> spectro = [EvPrint MsgSpecFinished]) /\
  (returned Sdr s = true ->
     radio = [EvSdrNew (Ok tt); EvPrint MsgSdrFinished] \/
     exists e, radio = [EvSdrNew (Raise e); EvPrint (MsgSdrError e)]).
Proof.
  assert (H0 : float_le (p_duration zero_params) 0 = true) by reflexivity.
  apply (@no_duration_no_acquisition sample zero_params H0 zero_answers
           sample_skip (state_after zero_answers sample_skip));
    vm_compute; reflexivity.
Defined.

(** ** A thread that has returned *)

Section Returned.

Variable C : collaborators.

Lemma returned_step (t : tid) (l : label) (s s' : sys) :
  launch_ok s = true ->
  returned t s = true ->
  step C l s = Some s' ->
  returned t s' = true /\
  events_of t (trace (shared s')) = events_of t (trace (shared s)).
Proof.
  intros L R H. destruct s as [w m tl sp sd sv].
  destruct t; cbn in R; try discriminate;
    step_cases H; cbn [shared] in *; norm_events; cbn;
    repeat match goal with
      | E : ?x = _, R : context [match ?x with _ => _ end] |- _ =>
          rewrite E in R; cbn in R
      end;
    try discriminate; try (split; [assumption | reflexivity]).
  all: exfalso; cbn in L;
    repeat match goal with x : option _ |- _ => destruct x end;
    cbn in *; discriminate.
Qed.

Lemma returned_run (t : tid) (ls : list label) (s s' : sys) :
  launch_ok s = true ->
  returned t s = true ->
  run C ls s = Some s' ->
  returned t s' = true /\
  events_of t (trace (shared s')) = events_of t (trace (shared s)).
Proof.
  revert s. induction ls as [|l ls IH]; cbn; intros s L R H.
  - injection H as <-. auto.
  - destruct (step C l s) as [s1|] eqn:E; [|discriminate].
    destruct (returned_step t l s L R E) as [R1 E1].
    assert (L1 : launch_ok s1 = true) by (eapply launch_ok_step; eassumption).
    destruct (IH s1 L1 R1 H) as [R2 E2]. split; [assumption | congruence].
Qed.

End Returned.

(** ** An error in the pointing loop *)

Section PointingError.

Variable C : collaborators.

(** What the other threads can do does not depend on the pointing thread. *)
Lemma same_elsewhere_step (l : label) (s s' s1 : sys) :
  same_elsewhere s s' ->
  label_of Telescope l = false ->
  step C l s = Some s1 ->
  exists s1' new,
    step C l s' = Some s1' /\ same_elsewhere s1 s1' /\
    trace (shared s1) = trace (shared s) ++ new /\
    trace (shared s1') = trace (shared s') ++ new.
Proof.
  intros (Ef & El & Ed & Efile & Ec & Em & Esp & Esd & Esv) Hl H.
  destruct s as [[f k d fl c tr] m tl sp sd sv].
  destruct s' as [[f' k' d' fl' c' tr'] m' tl' sp' sd' sv'].
  cbn in *. subst. destruct m.
  all: step_cases H; try discriminate;
    unfold step, main_step, main_handler, lift, point_telescope, collect_spectrometer_data,
      collect_sdr_data, save_data_periodically;
    cbn in *;
    repeat match goal with
      | E : ?x = _ |- context [?x] => rewrite E
      end;
    cbn.
  all: try first
      [ eexists; exists []; rewrite !app_nil_r;
        unfold same_elsewhere; cbn;
        repeat split; reflexivity
      | eexists; eexists; unfold same_elsewhere; cbn;
        repeat split; reflexivity ].
Qed.

Lemma same_elsewhere_run (ls : list label) (s s' s1 : sys) :
  same_elsewhere s s' ->
  forallb (fun l => negb (label_of Telescope l)) ls = true ->
  run C ls s = Some s1 ->
  exists s1', run C ls s' = Some s1' /\ same_elsewhere s1 s1'.
Proof.
  revert s s'. induction ls as [|l ls IH]; cbn; intros s s' E Hl H.
  - injection H as <-. eauto.
  - apply andb_prop in Hl. destruct Hl as [Hl Hls].
    apply negb_true_iff in Hl.
    destruct (step C l s) as [s2|] eqn:E2; [|discriminate].
    destruct (same_elsewhere_step l E Hl E2) as (s2' & new & -> & E' & _).
    eapply IH; eassumption.
Qed.

(** C6.  When [interf.point] raises, the pointing thread prints the error
    and returns: it points no more, it does not set the flag, and it leaves
    every other thread, the lock and the buffer as they were, so that
    whatever the other threads could do without the error (appends
    included) they can do after it, with the same result. *)
Theorem pointing_error_stays_local
    (answers : list string) (ls0 : list label) (s : sys) (st : tel_st)
    (e : exn) :
  session C answers ls0 = Some s ->
  tel s = Some st -> tel_at st = TelPoint -> alive s = true ->
  exists s',
    step C (Run Telescope (Raises e)) s = Some s' /\
    events_of Telescope (trace (shared s')) =
      events_of Telescope (trace (shared s)) ++
      [EvPoint (target_alt st) (target_az st);
       EvPrint (MsgTelescopeError e)] /\
    returned Telescope s' = true /\
    same_elsewhere s s' /\
    (forall ls s'', run C ls s' = Some s'' ->
       returned Telescope s'' = true /\
       events_of Telescope (trace (shared s'')) =
         events_of Telescope (trace (shared s'))) /\
    (forall ls s1,
       forallb (fun l => negb (label_of Telescope l)) ls = true ->
       run C ls s = Some s1 ->
       exists s1', run C ls s' = Some s1' /\ same_elsewhere s1 s1').
Proof.
  intros Hs Ht Hpc Ha.
  assert (L : launch_ok s = true) by (eapply session_launch_ok; eassumption).
  destruct s as [w m tl sp sd sv]. cbn in Ht. subst tl.
  eexists. split.
  { unfold step. rewrite Ha. cbn. unfold point_telescope. rewrite Hpc. reflexivity. }
  assert (E : same_elsewhere
                (Sys w m (Some st) sp sd sv)
                (Sys (emit Telescope
                        [EvPoint (target_alt st) (target_az st);
                         EvPrint (MsgTelescopeError e)] w)
                     m (Some (tel_goto TelDone st)) sp sd sv))
    by (unfold same_elsewhere; cbn; repeat split; reflexivity).
  split; [|split; [|split; [|split]]].
  - norm_events. reflexivity.
  - reflexivity.
  - exact E.
  - intros ls s'' H. eapply returned_run; [| |eassumption].
    + destruct m; cbn in *; auto.
    + reflexivity.
  - intros ls s1 Hl H. eapply same_elsewhere_run; eassumption.
Qed.

End PointingError.

Lemma pointing_error_stays_local_witness :
  let s := state_after sample_answers (sample_launch ++ [Run Telescope Plain]) in
  exists s',
    step sample (Run Telescope (Raises "motor stalled"%string)) s = Some s' /\
    events_of Telescope (trace (shared s')) =
      events_of Telescope (trace (shared s)) ++
      [EvPoint (Fin 45) (Fin 180); EvPrint (MsgTelescopeError "motor stalled"%string)] /\
    returned Telescope s' = true /\
    same_elsewhere s s' /\
    (forall ls s'', run sample ls s' = Some s'' ->
       returned Telescope s'' = true /\
       events_of Telescope (trace (shared s'')) =
         events_of Telescope (trace (shared s'))) /\
    (forall ls s1,
       forallb (fun l => negb (label_of Telescope l)) ls = true ->
       run sample ls s = Some s1 ->
       exists s1', run sample ls s' = Some s1' /\ same_elsewhere s1 s1').
Proof.
  apply (@pointing_error_stays_local sample sample_answers
           (sample_launch ++ [Run Telescope Plain])
           (state_after sample_answers
              (sample_launch ++ [Run Telescope Plain]))
           (TelSt TelPoint (Fin 45) (Fin 180)) "motor stalled"%string);
    vm_compute; reflexivity.
Defined.

(** ** An error in the snapshot writer *)

Section WriterError.

Variable C : collaborators.

(** C1, as the code has it.  When the write of the snapshot file raises
    (at [open] or inside [json.dump]), the writer releases the lock, prints
    the error and returns: it attempts no further snapshot, and it does not
    set the flag. *)
Theorem snapshot_error_ends_writer
    (answers : list string) (ls0 : list label) (s : sys) (i : supply)
    (e : exn) :
  session C answers ls0 = Some s ->
  saver s = Some SvWrite -> alive s = true ->
  write_failure i = Some e ->
  exists s',
    step C (Run Saver i) s = Some s' /\
    events_of Saver (trace (shared s')) =
      events_of Saver (trace (shared s)) ++
      [EvSave; EvPrint (MsgSaveError e)] /\
    returned Saver s' = true /\
    data_lock (shared s') = None /\
    terminate_flag (shared s') = terminate_flag (shared s) /\
    (forall ls s'', run C ls s' = Some s'' ->
       returned Saver s'' = true /\
       events_of Saver (trace (shared s'')) =
         events_of Saver (trace (shared s'))).
Proof.
  intros Hs Hsv Ha Hi.
  assert (L : launch_ok s = true) by (eapply session_launch_ok; eassumption).
  destruct s as [w m tl sp sd sv]. cbn in Hsv. subst sv.
  destruct i; try discriminate; injection Hi as ->;
    (eexists; split;
     [ unfold step; rewrite Ha; cbn; reflexivity
     | split; [norm_events; reflexivity|];
       split; [reflexivity|];
       split; [reflexivity|];
       split; [reflexivity|];
       intros ls s'' H; eapply returned_run; [| |eassumption];
       [destruct m; cbn in *; auto | reflexivity] ]).
Qed.

End WriterError.

Lemma snapshot_error_ends_writer_witness :
  let s := state_after sample_answers
             (sample_launch ++ [Run Saver Plain; Run Saver Plain]) in
  exists s',
    step sample (Run Saver (OpenFails "No space left on device"%string)) s
      = Some s' /\
    events_of Saver (trace (shared s')) =
      events_of Saver (trace (shared s)) ++
      [EvSave; EvPrint (MsgSaveError "No space left on device"%string)] /\
    returned Saver s' = true /\
    data_lock (shared s') = None /\
    terminate_flag (shared s') = terminate_flag (shared s) /\
    (forall ls s'', run sample ls s' = Some s'' ->
       returned Saver s'' = true /\
       events_of Saver (trace (shared s'')) =
         events_of Saver (trace (shared s'))).
Proof.
  apply (@snapshot_error_ends_writer sample sample_answers
           (sample_launch ++ [Run Saver Plain; Run Saver Plain])
           (state_after sample_answers
              (sample_launch ++ [Run Saver Plain; Run Saver Plain]))
           (OpenFails "No space left on device"%string)
           "No space left on device"%string);
    vm_compute; reflexivity.
Defined.

(** The claim of C1 fails on the code: in this session [open] raises at
    the first snapshot; the process is still running and the flag is not
    set, yet the writer has returned and never attempts another snapshot,
    whatever happens next. *)
Lemma snapshot_writer_gives_up :
  let s := state_after sample_answers sample_write_failure in
  alive s = true /\ terminate_flag (shared s) = false /\
  events_of Saver (trace (shared s)) =
    [EvSave; EvPrint (MsgSaveError "No space left on device"%string)] /\
  ~ exists ls s',
      run sample ls s = Some s' /\
      events_of Saver (trace (shared s')) <>
      events_of Saver (trace (shared s)).
Proof.
  cbv zeta. split; [|split; [|split]]; try (vm_compute; reflexivity).
  intros (ls & s' & H & N). apply N.
  eapply returned_run; [| |exact H]; vm_compute; reflexivity.
Qed.

(** ** The JSON serializer reads back what it writes *)

Module JsonFacts.

Import Json.



Arguments newline_indent : simpl never.
































End JsonFacts.

(** ** The lock and the snapshot *)

Section Snapshot.

Variable C : collaborators.

Ltac use_lock_ok :=
  repeat match goal with
    | H : forall st d, Some ?x = Some st -> _ -> _,
      E : _ ?x = _ |- _ => pose proof (H _ _ eq_refl E); clear H
    | H : forall st d, ?sp = Some st -> _ -> _,
      E1 : ?sp = Some ?x, E2 : _ ?x = _ |- _ =>
        pose proof (H _ _ E1 E2); clear H
    | H : Some ?pc = Some SvWrite -> _ |- _ =>
        first [ pose proof (H eq_refl); clear H | clear H ]
    | H : ?sv = Some SvWrite -> _, E : ?sv = Some SvWrite |- _ =>
        pose proof (H E); clear H
    end.

Lemma lock_ok_step (l : label) (s s' : sys) :
  lock_ok s -> step C l s = Some s' -> lock_ok s'.
Proof.
  intros (Hsp & Hsd & Hsv) H. destruct s as [w m tl sp sd sv]. cbn in *.
  step_cases H; unfold lock_ok; cbn;
    (split; [|split]); intros;
    repeat match goal with
      | H : Some _ = Some _ |- _ => injection H as H; subst
      end;
    cbn in *; try discriminate; try congruence;
    use_lock_ok; try congruence; eauto.
Qed.



Lemma session_lock_ok (answers : list string) (ls : list label) (s : sys) :
  session C answers ls = Some s -> lock_ok s.
Proof.
  unfold session. apply run_invariant with (I := lock_ok).
  - intros l s1 s2. apply lock_ok_step.
  - destruct (boot_shape C answers) as [[p [_ ->]]|[e [_ ->]]];
      unfold lock_ok; cbn; repeat split; intros; discriminate.
Qed.


End Snapshot.



(** ** Malformed input *)

Section MalformedInput.

Variable C : collaborators.

Lemma setup_event_quiet (evs : list event) :
  forallb setup_event evs = true ->
  forallb no_start_no_save evs = true.
Proof.
  induction evs as [|e evs IH]; cbn; [reflexivity|].
  intro H. apply andb_prop in H. destruct H as [He H].
  rewrite (IH H). now destruct e.
Qed.

Lemma exited_stays (ls : list label) (s s' : sys) :
  alive s = false -> run C ls s = Some s' -> s' = s.
Proof.
  intros Ha H. destruct ls as [|l ls]; cbn in H.
  - now injection H as <-.
  - unfold step in H. rewrite Ha in H. discriminate.
Qed.

(** C7.  When a numeric prompt (RA, Dec, altitude, azimuth, samples per
    block, number of blocks, duration) is answered with something [float]
    or [int] rejects, the script prints the input error and exits: no
    thread is ever started, the snapshot file is never written, and
    nothing else happens in the session. *)
Theorem malformed_input_aborts
    (answers : list string) (p : prompt) (a : string) :
  In (EvPrompt p (Some a)) (setup_events C answers) ->
  rejects C p a = true ->
  exists e,
    setup_result C answers = Raise e /\
    trace (shared (boot C answers)) =
      map (pair Main)
        (setup_events C answers ++ [EvPrint (MsgInputError e); EvExit]) /\
    forall ls s,
      session C answers ls = Some s ->
      s = boot C answers /\
      tel s = None /\ spec s = None /\ sdr s = None /\ saver s = None /\
      DATA_FILE (shared s) = None /\
      forallb (fun te => no_start_no_save (snd te)) (trace (shared s)) = true.
Proof.
  intros Hin Hrej.
  destruct (setup_events_ok C answers) as [P R].
  destruct (boot_shape C answers) as [[q [E B]]|[e [E B]]].
  - exfalso. rewrite E in R. specialize (R eq_refl).
    rewrite forallb_forall in R. specialize (R _ Hin). cbn in R.
    rewrite Hrej in R. discriminate.
  - exists e. split; [assumption|]. split; [now rewrite B|].
    intros ls s Hs. unfold session in Hs.
    assert (s = boot C answers)
      by (eapply exited_stays; [|eassumption]; now rewrite B).
    subst s. rewrite B. cbn. repeat split; auto.
    rewrite forallb_tagged, forallb_app.
    rewrite (setup_event_quiet _ P). reflexivity.
Qed.

End MalformedInput.

Lemma malformed_input_aborts_witness :
  exists e,
    setup_result sample bad_ra_answers = Raise e /\
    trace (shared (boot sample bad_ra_answers)) =
      map (pair Main)
        (setup_events sample bad_ra_answers ++
         [EvPrint (MsgInputError e); EvExit]) /\
    forall ls s,
      session sample bad_ra_answers ls = Some s ->
      s = boot sample bad_ra_answers /\
      tel s = None /\ spec s = None /\ sdr s = None /\ saver s = None /\
      DATA_FILE (shared s) = None /\
      forallb (fun te => no_start_no_save (snd te)) (trace (shared s)) = true.
Proof.
  apply (@malformed_input_aborts sample bad_ra_answers AskRa "abc"%string).
  - vm_compute. auto.
  - vm_compute. reflexivity.
Defined.

(** ** The observer *)

Section Observer.

Variable C : collaborators.

Lemma setup_event_observer (evs : list event) :
  forallb setup_event evs = true -> forallb observer_ok evs = true.
Proof.
  induction evs as [|e evs IH]; cbn; [reflexivity|].
  intro H. apply andb_prop in H. destruct H as [He H].
  rewrite (IH H), andb_true_r. destruct e; try reflexivity. exact He.
Qed.

Lemma observer_step (l : label) (s s' : sys) :
  step C l s = Some s' ->
  forallb (fun te => observer_ok (snd te)) (trace (shared s)) = true ->
  forallb (fun te => observer_ok (snd te)) (trace (shared s')) = true.
Proof.
  intros H I. destruct s as [w m tl sp sd sv].
  step_cases H; cbn in *; rewrite ?forallb_app, ?I; reflexivity.
Qed.

(** C10.  Every alt/az conversion of a session, whether for RA/Dec typed in
    or for the Sun, is made for latitude 37.8716, longitude -122.2727 and
    altitude 0, whatever is typed at the prompts. *)
Theorem observer_is_hard_coded
    (answers : list string) (ls : list label) (s : sys)
    (t : tid) (ra dec : pyfloat) (jd lat lon alt : Q) :
  session C answers ls = Some s ->
  In (t, EvGetAltaz ra dec jd lat lon alt) (trace (shared s)) ->
  lat = 37.8716%Q /\ lon = (-122.2727)%Q /\ alt = 0%Q.
Proof.
  intros Hs Hin.
  assert (I : forallb (fun te => observer_ok (snd te)) (trace (shared s))
              = true).
  { revert Hs. unfold session.
    apply run_invariant with
      (I := fun s => forallb (fun te => observer_ok (snd te))
                       (trace (shared s)) = true).
    - intros l s1 s2 I H. eapply observer_step; eassumption.
    - destruct (setup_events_ok C answers) as [P _].
      apply setup_event_observer in P.
      destruct (boot_shape C answers) as [[q [_ ->]]|[e [_ ->]]]; cbn;
        rewrite forallb_tagged, ?forallb_app, ?P; reflexivity. }
  rewrite forallb_forall in I. specialize (I _ Hin). cbn in I.
  apply andb_prop in I. destruct I as [I I3].
  apply andb_prop in I. destruct I as [I1 I2].
  apply Q_same_eq in I1, I2, I3. auto.
Qed.

End Observer.

Lemma observer_is_hard_coded_witness :
  In (Main, EvGetAltaz (Fin 10) (Fin 20) 2460000 37.8716 (-122.2727) 0)
     (trace (shared (state_after sun_answers sample_launch))) /\
  (37.8716 = 37.8716 /\ -122.2727 = -122.2727 /\ 0 = 0)%Q.
Proof.
  assert (H : In (Main, EvGetAltaz (Fin 10) (Fin 20) 2460000 37.8716
                            (-122.2727) 0)
                (trace (shared (state_after sun_answers sample_launch)))).
  { vm_compute. repeat first [left; reflexivity | right]. }
  split; [exact H|].
  apply (@observer_is_hard_coded sample sun_answers sample_launch
           (state_after sun_answers sample_launch) Main (Fin 10) (Fin 20)
           2460000 37.8716 (-122.2727) 0).
  - vm_compute. reflexivity.
  - exact H.
Defined.


(** * Further properties of the script *)

(** ** Mutual exclusion *)

Section MutualExclusion.

Variable C : collaborators.

Lemma held_ok_step (l : label) (s s' : sys) :
  launch_ok s = true -> held_ok s -> step C l s = Some s' -> held_ok s'.
Proof.
  intros L K H. destruct s as [w m tl sp sd sv]. unfold held_ok in *.
  step_cases H; cbn [shared data_lock emit set_lock set_file set_flag
                     append_data advance with_main with_shared] in *;
    intros t Ht; try discriminate;
    try (injection Ht as <-; cbn; rewrite ?Heqs0; reflexivity);
    specialize (K t Ht); destruct t; cbn in *;
    repeat match goal with
      | E : ?x = _, K : context [match ?x with _ => _ end] |- _ =>
          rewrite E in K; cbn in K
      | E : ?x = _ |- context [match ?x with _ => _ end] =>
          rewrite E; cbn
      end;
    try discriminate; try assumption; try reflexivity.
  all: destruct sp, sd, sv; cbn in *; discriminate.
Qed.

Lemma session_held_ok (answers : list string) (ls : list label) (s : sys) :
  session C answers ls = Some s -> held_ok s.
Proof.
  intro Hs.
  cut (launch_ok s = true /\ held_ok s); [tauto|].
  revert Hs. unfold session.
  apply run_invariant with (I := fun s => launch_ok s = true /\ held_ok s).
  - intros l s1 s2 [L K] H. split.
    + eapply launch_ok_step; eassumption.
    + eapply held_ok_step; eassumption.
  - split.
    + apply session_launch_ok with (C := C) (answers := answers) (ls := []).
      reflexivity.
    + destruct (boot_shape C answers) as [[p [_ ->]]|[e [_ ->]]];
        intros t Ht; discriminate.
Qed.

Lemma lock_ok_in_critical (s : sys) (t : tid) :
  lock_ok s -> in_critical t s = true -> data_lock (shared s) = Some t.
Proof.
  intros (Hsp & Hsd & Hsv) Ht. destruct t; cbn in Ht; try discriminate.
  - destruct (spec s) as [st|] eqn:E; [|discriminate].
    destruct (sp_at st) eqn:E'; try discriminate. eapply Hsp; eauto.
  - destruct (sdr s) as [st|] eqn:E; [|discriminate].
    destruct (sd_at st) eqn:E'; try discriminate. eapply Hsd; eauto.
  - destruct (saver s) as [[| | | |]|] eqn:E; try discriminate. now apply Hsv.
Qed.

(** X1.  In every session the lock is held by thread [t] exactly when [t]
    is inside its [with data_lock] block, so no two threads are ever
    inside such a block at the same time. *)
Theorem data_lock_excludes
    (answers : list string) (ls : list label) (s : sys) :
  session C answers ls = Some s ->
  (forall t, data_lock (shared s) = Some t <-> in_critical t s = true) /\
  (forall t1 t2,
      in_critical t1 s = true -> in_critical t2 s = true -> t1 = t2).
Proof.
  intro Hs.
  assert (K : held_ok s) by (eapply session_held_ok; eassumption).
  assert (O : lock_ok s) by (eapply session_lock_ok; eassumption).
  split.
  - intro t. split; [apply K | now apply lock_ok_in_critical].
  - intros t1 t2 H1 H2.
    apply (lock_ok_in_critical _ O) in H1.
    apply (lock_ok_in_critical _ O) in H2. congruence.
Qed.

(** X2.  Whoever holds the lock is never stuck with it: its next step,
    whatever the outcome (the append, a write that goes through or a write
    that fails), releases the lock, and such a step is always possible
    while the process runs. *)
Theorem data_lock_is_released
    (answers : list string) (ls : list label) (s : sys) (t : tid) :
  session C answers ls = Some s ->
  alive s = true ->
  data_lock (shared s) = Some t ->
  (exists i s', step C (Run t i) s = Some s') /\
  (forall i s', step C (Run t i) s = Some s' ->
     data_lock (shared s') = None /\ in_critical t s' = false).
Proof.
  intros Hs Ha Ht.
  assert (K : in_critical t s = true)
    by (eapply session_held_ok; eassumption).
  destruct s as [w m tl sp sd sv]. cbn in Ht.
  destruct t; cbn in K; try discriminate.
  - destruct sp as [st|]; [|discriminate].
    destruct (sp_at st) eqn:E; try discriminate. split.
    + exists (Utc ""), (Sys (set_lock None
                 (emit Spectrometer [EvAppend (spectra_record "" data)]
                    (append_data (spectra_record "" data) w)))
               m tl (Some (sp_goto SpSleep st)) sd sv).
      unfold step. rewrite Ha. cbn. unfold collect_spectrometer_data.
      now rewrite E.
    + intros i s' H. unfold step in H. rewrite Ha in H. cbn in H.
      unfold collect_spectrometer_data in H. rewrite E in H.
      destruct i; try discriminate. injection H as <-. now cbn.
  - destruct sd as [st|]; [|discriminate].
    destruct (sd_at st) eqn:E; try discriminate. split.
    + exists (Utc ""), (Sys (set_lock None
                 (emit Sdr [EvAppend (sdr_record "" sdr_data)]
                    (append_data (sdr_record "" sdr_data) w)))
               m tl sp (Some (sd_goto SdSleep st)) sv).
      unfold step. rewrite Ha. cbn. unfold collect_sdr_data.
      now rewrite E.
    + intros i s' H. unfold step in H. rewrite Ha in H. cbn in H.
      unfold collect_sdr_data in H. rewrite E in H.
      destruct i; try discriminate. injection H as <-. now cbn.
  - destruct sv as [[| | | |]|]; try discriminate. split.
    + exists (OpenFails ""%string). eexists.
      unfold step. rewrite Ha. cbn. reflexivity.
    + intros i s' H. unfold step in H. rewrite Ha in H. cbn in H.
      destruct i; try discriminate;
        try (destruct (json_dumps C _); [|discriminate]);
        injection H as <-; now cbn.
Qed.

End MutualExclusion.

Lemma data_lock_is_released_witness :
  let s := state_after sample_answers sample_saver_locked in
  (exists i s', step sample (Run Saver i) s = Some s') /\
  (forall i s', step sample (Run Saver i) s = Some s' ->
     data_lock (shared s') = None /\ in_critical Saver s' = false).
Proof.
  apply (@data_lock_is_released sample sample_answers sample_saver_locked
           (state_after sample_answers sample_saver_locked) Saver);
    vm_compute; reflexivity.
Defined.

Lemma data_lock_excludes_witness :
  let s := state_after sample_answers sample_saver_locked in
  (forall t, data_lock (shared s) = Some t <-> in_critical t s = true) /\
  (forall t1 t2,
      in_critical t1 s = true -> in_critical t2 s = true -> t1 = t2).
Proof.
  apply (@data_lock_excludes sample sample_answers sample_saver_locked
           (state_after sample_answers sample_saver_locked));
    vm_compute; reflexivity.
Defined.

(** ** The main thread *)

Lemma events_of_self (t : tid) (es : list event) :
  events_of t (map (pair t) es) = es.
Proof.
  induction es as [|e es IH]; cbn [map]; [reflexivity|].
  rewrite events_of_cons, IH. now destruct t.
Qed.

Lemma main_next_setup (evs : list event) :
  forallb setup_event evs = true ->
  monitor main_next MxSetup evs = Some MxSetup.
Proof.
  induction evs as [|e evs IH]; cbn; [reflexivity|].
  intro H. apply andb_prop in H. destruct H as [He H].
  destruct e; try discriminate; cbn in *; try (now apply IH).
  - destruct m; try discriminate. now apply IH.
  - rewrite He. now apply IH.
Qed.

Section MainThread.

Variable C : collaborators.

Lemma main_monitor_step (l : label) (s s' : sys) (x : main_expect) :
  step C l s = Some s' ->
  monitor main_next MxSetup (events_of Main (trace (shared s))) = Some x ->
  main_agrees x s = true ->
  exists x',
    monitor main_next MxSetup (events_of Main (trace (shared s'))) = Some x' /\
    main_agrees x' s' = true.
Proof.
  intros H M A. destruct s as [w m tl sp sd sv]. unfold main_agrees in *.
  step_cases H; cbn [shared mn with_main with_shared] in *; norm_events;
    rewrite ?monitor_app, ?M;
    try (exists x; split; [reflexivity | assumption]);
    try (destruct m; try discriminate);
    destruct x as [| |k| | | | | |]; try discriminate A;
    try (destruct k as [|[|[|[|k]]]]; try discriminate A);
    cbn; eexists; split; reflexivity.
Qed.

(** X3.  In every session the events of the main thread follow
    [main_next]: after the input section the four threads are started once
    each, in the order telescope, spectrometer, SDR, writer, and only then
    does the wait begin.  The wait ends with the line of 126 followed by
    [terminate_flag.set()], or with the line of a handler followed by the
    handler's [set()]; the line of a handler may also come after the line
    of 126, and even after the [set()] of line 127 while the [try] is not
    yet left, in which case [set()] is called a second time.  The
    completion line comes after a [set()] and is the last thing the main
    thread does. *)
Theorem main_thread_follows_script
    (answers : list string) (ls : list label) (s : sys) :
  session C answers ls = Some s ->
  exists x,
    monitor main_next MxSetup (events_of Main (trace (shared s))) = Some x /\
    main_agrees x s = true.
Proof.
  unfold session.
  apply run_invariant with
    (I := fun s =>
            exists x,
              monitor main_next MxSetup (events_of Main (trace (shared s)))
                = Some x /\
              main_agrees x s = true).
  - intros l s1 s2 (x & M & A) H. eapply main_monitor_step; eassumption.
  - destruct (setup_events_ok C answers) as [P _].
    destruct (boot_shape C answers) as [[p [_ ->]]|[e [_ ->]]];
      cbn [shared trace initial_world]; rewrite events_of_self.
    + exists MxSetup. split; [now apply main_next_setup | reflexivity].
    + exists MxEnd. rewrite monitor_app, (main_next_setup _ P).
      split; reflexivity.
Qed.

Lemma count_set_flag_app (tr1 tr2 : list (tid * event)) :
  count_set_flag (tr1 ++ tr2) = (count_set_flag tr1 + count_set_flag tr2)%nat.
Proof. unfold count_set_flag. now rewrite filter_app, length_app. Qed.

Lemma flag_ok_step (l : label) (s s' : sys) :
  flag_ok s -> step C l s = Some s' -> flag_ok s'.
Proof.
  intros (Ho & Hd & H2 & Hm) H. destruct s as [w m tl sp sd sv].
  unfold flag_ok in *. cbn [shared mn] in *.
  step_cases H;
    cbn [shared mn trace terminate_flag emit set_lock set_file set_flag
         append_data advance with_main with_shared map] in *;
    rewrite ?count_set_flag_app, ?forallb_app, ?Ho, ?events_of_app,
      ?existsb_app, ?in_app_iff;
    rewrite ?events_of_cons, ?events_of_nil;
    cbn [count_set_flag filter map snd fst is_set_flag List.length existsb
         is_handler_line orb andb implb forallb tid_eqb In];
    rewrite ?Nat.add_0_r, ?orb_false_r, ?orb_true_r;
    try (destruct m; try discriminate);
    (split; [reflexivity|]);
    rewrite ?in_app_iff; cbn [In];
    intuition (try discriminate; try congruence; try lia).
  all: match goal with |- ?G => idtac G end.
Qed.

Lemma setup_event_no_set_flag (evs : list event) :
  forallb setup_event evs = true ->
  count_set_flag (map (pair Main) evs) = 0%nat /\
  ~ In (Main, EvPrint MsgCompleted) (map (pair Main) evs).
Proof.
  unfold count_set_flag.
  induction evs as [|e evs IH]; cbn; [auto|].
  intro H. apply andb_prop in H. destruct H as [He H].
  destruct (IH H) as [IH1 IH2].
  destruct e; try discriminate; cbn; (split; [assumption|]);
    intros [E|E]; try discriminate; try contradiction.
  injection E as E. subst m. discriminate.
Qed.

Lemma set_flag_by_main (evs : list event) :
  forallb (fun te => implb (is_set_flag (snd te)) (tid_eqb Main (fst te)))
          (map (pair Main) evs) = true.
Proof.
  induction evs as [|e evs IH]; cbn; [reflexivity|].
  rewrite implb_true_r. exact IH.
Qed.

Lemma session_flag_ok (answers : list string) (ls : list label) (s : sys) :
  session C answers ls = Some s -> flag_ok s.
Proof.
  unfold session. apply run_invariant with (I := flag_ok).
  - intros l s1 s2. apply flag_ok_step.
  - destruct (setup_events_ok C answers) as [P _].
    destruct (setup_event_no_set_flag _ P) as [N1 N2].
    destruct (boot_shape C answers) as [[p [_ ->]]|[e [_ ->]]];
      unfold flag_ok;
      cbn [shared mn trace terminate_flag initial_world];
      rewrite set_flag_by_main.
    + rewrite N1. repeat split; try discriminate; tauto.
    + rewrite map_app, count_set_flag_app, N1. cbn.
      repeat split; try discriminate; [|now left].
      intro Hin. apply in_app_or in Hin. destruct Hin as [Hin|Hin];
        [contradiction | cbn in Hin; intuition discriminate].
Qed.

(** X4.  In every session the flag is set only by [terminate_flag.set()]
    in the main thread, and it is set exactly when such a call has taken
    effect.  At most two calls take effect, and two only when a handler
    runs after line 127 has already set the flag: the line of 126 and the
    line of a handler are then both printed.  Once the flag is set the
    main thread is past its wait, and the completion line is never printed
    with the flag unset. *)
Theorem terminate_flag_set_by_main
    (answers : list string) (ls : list label) (s : sys) :
  session C answers ls = Some s ->
  (count_set_flag (trace (shared s)) <= 2)%nat /\
  (terminate_flag (shared s) = true <->
   (1 <= count_set_flag (trace (shared s)))%nat) /\
  (forall t, In (t, EvSetFlag) (trace (shared s)) -> t = Main) /\
  (count_set_flag (trace (shared s)) = 2%nat ->
   In (Main, EvPrint MsgDurationReached) (trace (shared s)) /\
   existsb is_handler_line (events_of Main (trace (shared s))) = true) /\
  (terminate_flag (shared s) = true -> past_wait (mn s) = true) /\
  (In (Main, EvPrint MsgCompleted) (trace (shared s)) ->
   terminate_flag (shared s) = true).
Proof.
  intro Hs. destruct (session_flag_ok answers ls Hs) as (Ho & Hd & H2 & Hm).
  cbv zeta in *.
  split; [|split; [|split; [|split; [|split]]]]; try assumption.
  - destruct (mn s); intuition lia.
  - destruct (mn s); intuition (try lia; try congruence).
  - intros t Hin. rewrite forallb_forall in Ho. specialize (Ho _ Hin).
    cbn in Ho. now destruct t.
  - destruct (mn s); cbn; intuition congruence.
Qed.

End MainThread.

Lemma main_thread_follows_script_witness :
  let s := state_after sample_answers sample_interrupted in
  exists x,
    monitor main_next MxSetup (events_of Main (trace (shared s))) = Some x /\
    main_agrees x s = true.
Proof.
  apply (@main_thread_follows_script sample sample_answers sample_interrupted
           (state_after sample_answers sample_interrupted)).
  vm_compute. reflexivity.
Defined.

Lemma terminate_flag_set_by_main_witness :
  let s := state_after sample_answers sample_interrupted in
  (count_set_flag (trace (shared s)) <= 2)%nat /\
  (terminate_flag (shared s) = true <->
   (1 <= count_set_flag (trace (shared s)))%nat) /\
  (forall t, In (t, EvSetFlag) (trace (shared s)) -> t = Main) /\
  (count_set_flag (trace (shared s)) = 2%nat ->
   In (Main, EvPrint MsgDurationReached) (trace (shared s)) /\
   existsb is_handler_line (events_of Main (trace (shared s))) = true) /\
  (terminate_flag (shared s) = true -> past_wait (mn s) = true) /\
  (In (Main, EvPrint MsgCompleted) (trace (shared s)) ->
   terminate_flag (shared s) = true).
Proof.
  apply (@terminate_flag_set_by_main sample sample_answers sample_interrupted
           (state_after sample_answers sample_interrupted)).
  vm_compute. reflexivity.
Defined.



(** ** The wait of the main thread *)


Section Wait.

Variable C : collaborators.






End Wait.


(** ** The loops, event by event *)

Lemma Q_same_same (a : Q) : Q_same a a = true.
Proof. now apply Q_same_eq. Qed.

Section Loops.

Variable C : collaborators.

Lemma tel_monitor_step (p : params) (l : label) (s s' : sys)
    (x : tel_expect) :
  launch_ok s = true -> runs_with p s ->
  step C l s = Some s' ->
  monitor (tel_next (p_target_alt p) (p_target_az p)) TxIdle
    (events_of Telescope (trace (shared s))) = Some x ->
  tel_agrees x s = true ->
  exists x',
    monitor (tel_next (p_target_alt p) (p_target_az p)) TxIdle
      (events_of Telescope (trace (shared s'))) = Some x' /\
    tel_agrees x' s' = true.
Proof.
  intros L (_ & Ht & _ & _) H M A. destruct s as [w m tl sp sd sv].
  unfold tel_agrees in *.
  step_cases H; cbn [shared tel] in *; norm_events;
    rewrite ?monitor_app, ?M; cbn [tel_at tel_goto];
    repeat match goal with
      | E : tel_at ?st = _ |- _ => rewrite E in *
      end;
    try (exists x; split; [reflexivity | assumption]).
  all: try (destruct (Ht _ eq_refl) as [Ea Ez]; rewrite ?Ea, ?Ez);
    try (cbn in L; destruct tl; [discriminate|]);
    destruct x; try discriminate;
    repeat (progress (cbn; rewrite ?float_same_same, ?Q_same_same));
    eexists; split; reflexivity.
Qed.

Lemma save_monitor_step (l : label) (s s' : sys) (x : save_expect) :
  launch_ok s = true ->
  step C l s = Some s' ->
  monitor save_next WxIdle (events_of Saver (trace (shared s))) = Some x ->
  save_agrees x s = true ->
  exists x',
    monitor save_next WxIdle (events_of Saver (trace (shared s'))) = Some x'
    /\ save_agrees x' s' = true.
Proof.
  intros L H M A. destruct s as [w m tl sp sd sv].
  unfold save_agrees in *.
  step_cases H; cbn [shared saver] in *; norm_events;
    rewrite ?monitor_app, ?M;
    try (exists x; split; [reflexivity | assumption]).
  all: try (cbn in L; destruct sv; [discriminate|]);
    destruct x; try discriminate;
    cbn; eexists; split; reflexivity.
Qed.

Lemma spectro_contract_step (l : label) (s s' : sys) :
  launch_ok s = true ->
  step C l s = Some s' ->
  monitor spectro_contract (SqIdle PyNone)
    (events_of Spectrometer (trace (shared s))) = Some (spectro_expected s) ->
  monitor spectro_contract (SqIdle PyNone)
    (events_of Spectrometer (trace (shared s'))) = Some (spectro_expected s').
Proof.
  intros L H M. destruct s as [w m tl sp sd sv].
  unfold spectro_expected in *.
  step_cases H; cbn [shared spec] in *; norm_events;
    rewrite ?monitor_app, ?M; cbn [sp_at sp_goto sp_prev_cnt];
    repeat match goal with
      | E : sp_at ?st = _ |- _ => rewrite E in *
      end;
    try assumption; try reflexivity.
  - cbn in L. destruct sp; [discriminate | reflexivity].
  - cbn. now rewrite pyval_eqb_refl, Heqb0.
  - cbn. now rewrite pyval_eqb_refl, Heqb0.
  - cbn [monitor spectro_contract]. rewrite pyval_eqb_refl.
    cbn [monitor spectro_contract]. now rewrite String.eqb_refl.
  - cbn [monitor spectro_contract]. now rewrite is_spectra_record_refl.
Qed.

(** X6.  In every session the events of the pointing thread follow
    [tel_next]: every call of [interf.point] is made at the altitude and
    azimuth of the input section; a call that returns is followed by its
    line and by five seconds of sleep, a call that raises by the error
    line and by nothing more. *)
Theorem pointing_loop_follows_source
    (answers : list string) (p : params) (ls : list label) (s : sys) :
  setup_result C answers = Ok p ->
  session C answers ls = Some s ->
  exists x,
    monitor (tel_next (p_target_alt p) (p_target_az p)) TxIdle
      (events_of Telescope (trace (shared s))) = Some x /\
    tel_agrees x s = true.
Proof.
  intros Hp Hs.
  cut (launch_ok s = true /\ runs_with p s /\
       exists x,
         monitor (tel_next (p_target_alt p) (p_target_az p)) TxIdle
           (events_of Telescope (trace (shared s))) = Some x /\
         tel_agrees x s = true); [tauto|].
  revert Hs. unfold session.
  apply run_invariant with
    (I := fun s =>
            launch_ok s = true /\ runs_with p s /\
            exists x,
              monitor (tel_next (p_target_alt p) (p_target_az p)) TxIdle
                (events_of Telescope (trace (shared s))) = Some x /\
              tel_agrees x s = true).
  - intros l s1 s2 (L & R & x & M & A) H. split; [|split].
    + eapply launch_ok_step; eassumption.
    + eapply runs_with_step; eassumption.
    + eapply tel_monitor_step; eassumption.
  - split; [|split].
    + apply session_launch_ok with (C := C) (answers := answers) (ls := []).
      reflexivity.
    + apply session_runs_with with (C := C) (answers := answers) (ls := []);
        [assumption | reflexivity].
    + exists TxIdle. rewrite boot_no_thread_events by discriminate.
      destruct (boot_shape C answers) as [[p' [_ ->]]|[e [_ ->]]];
        split; reflexivity.
Qed.

(** X7.  In every session the events of the spectrometer thread follow
    [spectro_contract]: [snap.read_data] gets [None] at first and then the
    [acc_cnt] of the latest response that had one; every iteration, with
    or without an append, ends with one second of sleep; a call that
    raises is followed by the error line with its message; nothing comes
    after the error line or the completion line. *)
Theorem spectrometer_loop_follows_source
    (answers : list string) (ls : list label) (s : sys) :
  session C answers ls = Some s ->
  monitor spectro_contract (SqIdle PyNone)
    (events_of Spectrometer (trace (shared s))) = Some (spectro_expected s).
Proof.
  intro Hs.
  cut (launch_ok s = true /\
       monitor spectro_contract (SqIdle PyNone)
         (events_of Spectrometer (trace (shared s)))
       = Some (spectro_expected s)); [tauto|].
  revert Hs. unfold session.
  apply run_invariant with
    (I := fun s =>
            launch_ok s = true /\
            monitor spectro_contract (SqIdle PyNone)
              (events_of Spectrometer (trace (shared s)))
            = Some (spectro_expected s)).
  - intros l s1 s2 (L & M) H. split.
    + eapply launch_ok_step; eassumption.
    + eapply spectro_contract_step; eassumption.
  - split.
    + apply session_launch_ok with (C := C) (answers := answers) (ls := []).
      reflexivity.
    + rewrite boot_no_thread_events by discriminate.
      destruct (boot_shape C answers) as [[p' [_ ->]]|[e [_ ->]]];
        reflexivity.
Qed.

(** X8.  In every session the events of the writer thread follow
    [save_next]: all it ever does is write the file, print and sleep; a
    write that goes through is followed by its line and by ten seconds of
    sleep, a write that raises by the error line and by nothing more. *)
Theorem writer_loop_follows_source
    (answers : list string) (ls : list label) (s : sys) :
  session C answers ls = Some s ->
  exists x,
    monitor save_next WxIdle (events_of Saver (trace (shared s))) = Some x /\
    save_agrees x s = true.
Proof.
  intro Hs.
  cut (launch_ok s = true /\
       exists x,
         monitor save_next WxIdle (events_of Saver (trace (shared s)))
         = Some x /\ save_agrees x s = true); [tauto|].
  revert Hs. unfold session.
  apply run_invariant with
    (I := fun s =>
            launch_ok s = true /\
            exists x,
              monitor save_next WxIdle (events_of Saver (trace (shared s)))
              = Some x /\ save_agrees x s = true).
  - intros l s1 s2 (L & x & M & A) H. split.
    + eapply launch_ok_step; eassumption.
    + eapply save_monitor_step; eassumption.
  - split.
    + apply session_launch_ok with (C := C) (answers := answers) (ls := []).
      reflexivity.
    + exists WxIdle. rewrite boot_no_thread_events by discriminate.
      destruct (boot_shape C answers) as [[p' [_ ->]]|[e [_ ->]]];
        split; reflexivity.
Qed.

End Loops.

Lemma pointing_loop_follows_source_witness :
  let s := state_after sample_answers sample_pointing in
  exists x,
    monitor (tel_next (Fin 45) (Fin 180)) TxIdle
      (events_of Telescope (trace (shared s))) = Some x /\
    tel_agrees x s = true.
Proof.
  apply (@pointing_loop_follows_source sample sample_answers
           (Params (Fin 45) (Fin 180) 1024 4 (Fin 3)) sample_pointing
           (state_after sample_answers sample_pointing));
    vm_compute; reflexivity.
Defined.

Lemma spectrometer_loop_follows_source_witness :
  let s := state_after sample_answers sample_spectra in
  monitor spectro_contract (SqIdle PyNone)
    (events_of Spectrometer (trace (shared s))) = Some (spectro_expected s).
Proof.
  apply (@spectrometer_loop_follows_source sample sample_answers
           sample_spectra (state_after sample_answers sample_spectra)).
  vm_compute. reflexivity.
Defined.

Lemma writer_loop_follows_source_witness :
  let s := state_after sample_answers sample_saving in
  exists x,
    monitor save_next WxIdle (events_of Saver (trace (shared s))) = Some x /\
    save_agrees x s = true.
Proof.
  apply (@writer_loop_follows_source sample sample_answers sample_saving
           (state_after sample_answers sample_saving)).
  vm_compute. reflexivity.
Defined.

(** ** The snapshot file *)

Section SnapshotFile.

Variable C : collaborators.

Lemma file_step (l : label) (s s' : sys) :
  label_of Saver l = false -> step C l s = Some s' ->
  DATA_FILE (shared s') = DATA_FILE (shared s).
Proof.
  intros Hl H. destruct s as [w m tl sp sd sv].
  step_cases H; try discriminate; reflexivity.
Qed.

(** X9.  Only the writer thread touches the snapshot file: whatever the
    other threads, the clock and the interrupts do, the file stays as it
    is. *)
Theorem only_the_writer_touches_the_file (ls : list label) (s s' : sys) :
  forallb (fun l => negb (label_of Saver l)) ls = true ->
  run C ls s = Some s' ->
  DATA_FILE (shared s') = DATA_FILE (shared s).
Proof.
  revert s. induction ls as [|l ls IH]; cbn; intros s Hl H.
  - now injection H as <-.
  - apply andb_prop in Hl. destruct Hl as [Hl Hls].
    apply negb_true_iff in Hl.
    destruct (step C l s) as [s1|] eqn:E; [|discriminate].
    rewrite (IH _ Hls H). now apply file_step with (l := l).
Qed.




End SnapshotFile.

Lemma only_the_writer_touches_the_file_witness :
  DATA_FILE (shared (state_after sample_answers
                       (sample_saving ++ sample_spectrum))) =
  DATA_FILE (shared (state_after sample_answers sample_saving)).
Proof.
  apply (@only_the_writer_touches_the_file sample sample_spectrum
           (state_after sample_answers sample_saving)
           (state_after sample_answers (sample_saving ++ sample_spectrum)));
    vm_compute; reflexivity.
Defined.


(** ** Errors in the acquisition loops *)

Section AcquisitionErrors.

Variable C : collaborators.

(** What the other threads can do does not depend on thread [t]. *)
Lemma same_except_step (t : tid) (l : label) (s s' s1 : sys) :
  same_except t s s' ->
  label_of t l = false ->
  step C l s = Some s1 ->
  exists s1', step C l s' = Some s1' /\ same_except t s1 s1'.
Proof.
  intros (Ef & El & Ed & Efile & Ec & Em & Etl & Esp & Esd & Esv) Hl H.
  destruct s as [[f k d fl c tr] m tl sp sd sv].
  destruct s' as [[f' k' d' fl' c' tr'] m' tl' sp' sd' sv'].
  cbn in Ef, El, Ed, Efile, Ec, Em, Etl, Esp, Esd, Esv. subst.
  destruct t; cbn in Hl, Etl, Esp, Esd, Esv;
    try specialize (Etl eq_refl); try specialize (Esp eq_refl);
    try specialize (Esd eq_refl); try specialize (Esv eq_refl);
    subst; destruct m.
  all: step_cases H; try discriminate;
    unfold step, main_step, main_handler, lift, point_telescope,
      collect_spectrometer_data, collect_sdr_data, save_data_periodically;
    cbn in *;
    repeat match goal with
      | E : ?x = _ |- context [?x] => rewrite E
      end;
    cbn;
    eexists; (split; [reflexivity|]);
    unfold same_except; cbn; repeat split; intros;
    try discriminate; reflexivity.
Qed.

Lemma same_except_run (t : tid) (ls : list label) (s s' s1 : sys) :
  same_except t s s' ->
  forallb (fun l => negb (label_of t l)) ls = true ->
  run C ls s = Some s1 ->
  exists s1', run C ls s' = Some s1' /\ same_except t s1 s1'.
Proof.
  revert s s'. induction ls as [|l ls IH]; cbn; intros s s' E Hl H.
  - injection H as <-. eauto.
  - apply andb_prop in Hl. destruct Hl as [Hl Hls].
    apply negb_true_iff in Hl.
    destruct (step C l s) as [s2|] eqn:E2; [|discriminate].
    destruct (@same_except_step t l s s' s2 E Hl E2) as (s2' & -> & E').
    eapply IH; eassumption.
Qed.


(** X11.  When [snap.read_data] raises, the spectrometer thread prints the
    error and returns: it reads and appends no more, it does not set the
    flag, and it leaves every other thread, the lock, the buffer and the
    file as they were, so that whatever the other threads could do without
    the error they can do after it, with the same result. *)
Theorem spectrometer_error_stays_local
    (answers : list string) (ls0 : list label) (s : sys) (st : spec_st)
    (e : exn) :
  session C answers ls0 = Some s ->
  spec s = Some st -> sp_at st = SpRead -> alive s = true ->
  exists s',
    step C (Run Spectrometer (Raises e)) s = Some s' /\
    events_of Spectrometer (trace (shared s')) =
      events_of Spectrometer (trace (shared s)) ++
      [EvReadData (sp_prev_cnt st) (Raise e); EvPrint (MsgSpecError e)] /\
    returned Spectrometer s' = true /\
    same_except Spectrometer s s' /\
    (forall ls s'', run C ls s' = Some s'' ->
       returned Spectrometer s'' = true /\
       events_of Spectrometer (trace (shared s'')) =
         events_of Spectrometer (trace (shared s'))) /\
    (forall ls s1,
       forallb (fun l => negb (label_of Spectrometer l)) ls = true ->
       run C ls s = Some s1 ->
       exists s1', run C ls s' = Some s1' /\ same_except Spectrometer s1 s1').
Proof.
  intros Hs Ht Hpc Ha.
  assert (L : launch_ok s = true) by (eapply session_launch_ok; eassumption).
  destruct s as [w m tl sp sd sv]. cbn in Ht. subst sp.
  eexists. split.
  { unfold step. rewrite Ha. cbn. unfold collect_spectrometer_data.
    rewrite Hpc. reflexivity. }
  assert (E : same_except Spectrometer
                (Sys w m tl (Some st) sd sv)
                (Sys (emit Spectrometer
                        [EvReadData (sp_prev_cnt st) (Raise e);
                         EvPrint (MsgSpecError e)] w)
                     m tl (Some (sp_goto SpDone st)) sd sv))
    by (unfold same_except; cbn; repeat split; intros;
        try discriminate; reflexivity).
  split; [|split; [|split; [|split]]].
  - norm_events. reflexivity.
  - reflexivity.
  - exact E.
  - intros ls s'' H. eapply returned_run; [| |eassumption].
    + destruct m; cbn in *; auto.
    + reflexivity.
  - intros ls s1 Hl H. eapply same_except_run; eassumption.
Qed.

(** X12.  When [SDR()] or [sdr.capture_data] raises, the SDR thread prints
    the error and returns: it captures and appends no more, it does not
    set the flag, and it leaves every other thread, the lock, the buffer
    and the file as they were, so that whatever the other threads could do
    without the error they can do after it, with the same result. *)
Theorem sdr_error_stays_local
    (answers : list string) (ls0 : list label) (s : sys) (st : sdr_st)
    (e : exn) :
  session C answers ls0 = Some s ->
  sdr s = Some st -> sd_at st = SdNew \/ sd_at st = SdCapture ->
  alive s = true ->
  exists s',
    step C (Run Sdr (Raises e)) s = Some s' /\
    events_of Sdr (trace (shared s')) =
      events_of Sdr (trace (shared s)) ++ sdr_failure st e /\
    returned Sdr s' = true /\
    same_except Sdr s s' /\
    (forall ls s'', run C ls s' = Some s'' ->
       returned Sdr s'' = true /\
       events_of Sdr (trace (shared s'')) =
         events_of Sdr (trace (shared s'))) /\
    (forall ls s1,
       forallb (fun l => negb (label_of Sdr l)) ls = true ->
       run C ls s = Some s1 ->
       exists s1', run C ls s' = Some s1' /\ same_except Sdr s1 s1').
Proof.
  intros Hs Ht Hpc Ha.
  assert (L : launch_ok s = true) by (eapply session_launch_ok; eassumption).
  destruct s as [w m tl sp sd sv]. cbn in Ht. subst sd.
  exists (Sys (emit Sdr (sdr_failure st e) w) m tl sp
              (Some (sd_goto SdDone st)) sv).
  split.
  { unfold step. rewrite Ha. cbn. unfold collect_sdr_data, sdr_failure.
    destruct Hpc as [-> | ->]; reflexivity. }
  assert (E : same_except Sdr
                (Sys w m tl sp (Some st) sv)
                (Sys (emit Sdr (sdr_failure st e) w) m tl sp
                     (Some (sd_goto SdDone st)) sv))
    by (unfold same_except; cbn; repeat split; intros;
        try discriminate; reflexivity).
  split; [|split; [|split; [|split]]].
  - cbn [shared trace emit]. now rewrite events_of_app, events_of_self.
  - reflexivity.
  - exact E.
  - intros ls s'' H. eapply returned_run; [| |eassumption].
    + destruct m; cbn in *; auto.
    + reflexivity.
  - intros ls s1 Hl H. eapply same_except_run; eassumption.
Qed.

End AcquisitionErrors.

Lemma spectrometer_error_stays_local_witness :
  let s := state_after sample_answers
             (sample_launch ++
              [Run Spectrometer Plain; Run Spectrometer Plain]) in
  exists s',
    step sample (Run Spectrometer (Raises "timed out"%string)) s = Some s' /\
    events_of Spectrometer (trace (shared s')) =
      events_of Spectrometer (trace (shared s)) ++
      [EvReadData PyNone (Raise "timed out"%string);
       EvPrint (MsgSpecError "timed out"%string)] /\
    returned Spectrometer s' = true /\
    same_except Spectrometer s s' /\
    (forall ls s'', run sample ls s' = Some s'' ->
       returned Spectrometer s'' = true /\
       events_of Spectrometer (trace (shared s'')) =
         events_of Spectrometer (trace (shared s'))) /\
    (forall ls s1,
       forallb (fun l => negb (label_of Spectrometer l)) ls = true ->
       run sample ls s = Some s1 ->
       exists s1',
         run sample ls s' = Some s1' /\ same_except Spectrometer s1 s1').
Proof.
  apply (@spectrometer_error_stays_local sample sample_answers
           (sample_launch ++
            [Run Spectrometer Plain; Run Spectrometer Plain])
           (state_after sample_answers
              (sample_launch ++
               [Run Spectrometer Plain; Run Spectrometer Plain]))
           (SpecSt SpRead (Fin 3) PyNone 1700000000) "timed out"%string);
    vm_compute; reflexivity.
Defined.

Lemma sdr_error_stays_local_witness :
  let s := state_after sample_answers sample_launch in
  exists s',
    step sample (Run Sdr (Raises "no device"%string)) s = Some s' /\
    events_of Sdr (trace (shared s')) =
      events_of Sdr (trace (shared s)) ++
      sdr_failure (SdrSt SdNew 1024 4 (Fin 3) 0) "no device"%string /\
    returned Sdr s' = true /\
    same_except Sdr s s' /\
    (forall ls s'', run sample ls s' = Some s'' ->
       returned Sdr s'' = true /\
       events_of Sdr (trace (shared s'')) =
         events_of Sdr (trace (shared s'))) /\
    (forall ls s1,
       forallb (fun l => negb (label_of Sdr l)) ls = true ->
       run sample ls s = Some s1 ->
       exists s1', run sample ls s' = Some s1' /\ same_except Sdr s1 s1').
Proof.
  apply (@sdr_error_stays_local sample sample_answers sample_launch
           (state_after sample_answers sample_launch)
           (SdrSt SdNew 1024 4 (Fin 3) 0) "no device"%string);
    [ vm_compute; reflexivity | vm_compute; reflexivity
    | left; reflexivity | vm_compute; reflexivity ].
Defined.

(** ** The end of the acquisition loops *)

Section Deadline.

Variable C : collaborators.



End Deadline.


(** ** The input section, by cases *)

Ltac setup_cases :=
  unfold setup_result, setup_events, read_params, read_target, ask_float,
    ask_int, call_get_altaz, bind, input, log, raise_or_ret, ret,
    chose_sun, chose_coords, target_asked;
  repeat (cbn [fst snd app negb];
          match goal with
          | |- context [says_yes ?a] => destruct (says_yes a) eqn:?
          | |- context [match ?x with _ => _ end] =>
              match x with
              | context [match _ with _ => _ end] => fail 1
              | _ => destruct x eqn:?
              end
          end);
  cbn [fst snd app negb].

Ltac split_last :=
  match goal with
  | |- exists evs last, ?l = _ /\ _ =>
      exists (removelast l), (List.last l EvExit); split; [reflexivity|]
  end.

Section InputCases.

Variable C : collaborators.

Lemma setup_raise_explained (answers : list string) (e : exn) :
  setup_result C answers = Raise e ->
  exists evs last,
    setup_events C answers = evs ++ [last] /\ explains C e last.
Proof.
  setup_cases; intro H; try discriminate; injection H as <-;
    split_last; cbn; try reflexivity; try assumption.
Qed.

Lemma setup_questions (answers : list string) :
  exists k,
    asked (setup_events C answers) =
      firstn k (combine (questions (chose_sun answers) (chose_coords answers))
                        (typed answers)) /\
    match setup_result C answers with
    | Ok _ =>
        k = List.length (questions (chose_sun answers) (chose_coords answers))
    | Raise _ =>
        (k <= List.length
                (questions (chose_sun answers) (chose_coords answers)))%nat
    end.
Proof.
  setup_cases;
    match goal with
    | |- exists k, ?a = _ /\ _ => exists (List.length a)
    end;
    (split; [reflexivity | cbn; first [reflexivity | lia]]).
Qed.

Lemma setup_fits_choice (answers : list string) :
  forallb (fits_choice (chose_sun answers) (chose_coords answers))
    (setup_events C answers) = true.
Proof. setup_cases; reflexivity. Qed.

Lemma setup_target (answers : list string) (p : params) :
  setup_result C answers = Ok p ->
  target_asked C answers (p_target_alt p) (p_target_az p).
Proof.
  setup_cases; intro H; try discriminate; injection H as <-; cbn;
    subst; repeat esplit; eassumption.
Qed.

End InputCases.

Section InputKept.

Variable C : collaborators.

Lemma asked_app (xs ys : list event) : asked (xs ++ ys) = asked xs ++ asked ys.
Proof. apply flat_map_app. Qed.

Lemma map_snd_tagged (t : tid) (es : list event) :
  map snd (map (pair t) es) = es.
Proof. rewrite map_map. cbn. apply map_id. Qed.

Lemma input_kept_step (p : params) (sun coords : bool)
    (qs : list (prompt * option string)) (l : label) (s s' : sys) :
  runs_with p s ->
  input_kept p sun coords qs s -> step C l s = Some s' ->
  input_kept p sun coords qs s'.
Proof.
  intros (_ & Rt & _ & _) (P & F & A) H. destruct s as [w m tl sp sd sv].
  unfold input_kept in *. cbn [shared tel] in *.
  step_cases H;
    cbn [shared trace emit set_lock set_file set_flag append_data advance
         with_main with_shared map] in *;
    rewrite ?forallb_app, ?map_app, ?asked_app, ?P, ?F, ?A;
    try (destruct (Rt _ eq_refl) as [-> ->]);
    cbn; rewrite ?float_same_same, ?app_nil_r; auto.
Qed.

Lemma setup_event_no_point (alt az : pyfloat) (t : tid)
    (evs : list event) :
  forallb setup_event evs = true ->
  forallb (points_at alt az) (map (pair t) evs) = true.
Proof.
  induction evs as [|e evs IH]; cbn; [reflexivity|].
  intro H. apply andb_prop in H. destruct H as [He H].
  rewrite (IH H), andb_true_r. now destruct e.
Qed.

Lemma session_input_kept (answers : list string) (p : params)
    (ls : list label) (s : sys) :
  setup_result C answers = Ok p ->
  session C answers ls = Some s ->
  input_kept p (chose_sun answers) (chose_coords answers)
    (asked (setup_events C answers)) s.
Proof.
  intros Hp Hs.
  cut (runs_with p s /\
       input_kept p (chose_sun answers) (chose_coords answers)
         (asked (setup_events C answers)) s); [tauto|].
  revert Hs. unfold session.
  apply run_invariant with
    (I := fun s =>
            runs_with p s /\
            input_kept p (chose_sun answers) (chose_coords answers)
              (asked (setup_events C answers)) s).
  - intros l s1 s2 (R & K) H. split.
    + eapply runs_with_step; eassumption.
    + eapply input_kept_step; eassumption.
  - split.
    + apply session_runs_with with (C := C) (answers := answers) (ls := []);
        [assumption | reflexivity].
    + destruct (setup_events_ok C answers) as [P _].
      destruct (boot_shape C answers) as [[p' [E ->]]|[e [E ->]]];
        rewrite E in Hp; [|discriminate].
      unfold input_kept. cbn. split; [|split].
      * now apply setup_event_no_point.
      * rewrite forallb_tagged. apply setup_fits_choice.
      * now rewrite map_snd_tagged.
Qed.

Lemma session_after_raise (answers : list string) (e : exn)
    (ls : list label) (s : sys) :
  setup_result C answers = Raise e ->
  session C answers ls = Some s ->
  s = Sys (initial_world C
             (setup_events C answers ++ [EvPrint (MsgInputError e); EvExit]))
          MnExit None None None None.
Proof.
  intros He Hs.
  destruct (boot_shape C answers) as [[p' [E B]]|[e' [E B]]];
    rewrite E in He; [discriminate|]. injection He as ->.
  unfold session in Hs. rewrite B in Hs.
  destruct ls as [|l ls]; cbn in Hs; [now injection Hs as <-|discriminate].
Qed.

(** X14.  Every exception of the input section that line 107 catches
    ends the script at once, when the yes/no answers are ASCII: the
    exception is that of the call made last (EOFError at a prompt,
    [float] or [int] on the answer just typed, [sunpos], [get_altaz]); the
    script prints it as an input error and exits, and that is all the
    session ever does: no thread is started, nothing is collected, no file
    is written and the flag is not set. *)
Theorem input_error_ends_the_script
    (answers : list string) (e : exn) :
  ascii_choices answers = true ->
  setup_result C answers = Raise e ->
  (exists evs last,
     setup_events C answers = evs ++ [last] /\ explains C e last) /\
  forall ls s,
    session C answers ls = Some s ->
    trace (shared s) =
      map (pair Main)
        (setup_events C answers ++ [EvPrint (MsgInputError e); EvExit]) /\
    tel s = None /\ spec s = None /\ sdr s = None /\ saver s = None /\
    collected_data (shared s) = [] /\
    terminate_flag (shared s) = false /\
    forall l, step C l s = None.
Proof.
  intros _ He. split; [now apply setup_raise_explained|].
  intros ls s Hs.
  rewrite (@session_after_raise answers e ls s He Hs). cbn.
  repeat split.
Qed.

(** X15.  When the yes/no answers are ASCII, every call of [interf.point]
    in a session is made by the pointing thread, at the target the answers
    ask for: the Sun's position from
    [sunpos] and [get_altaz] at [ugradio.timing.julian_date()], the
    conversion of the RA and Dec typed in at the Julian date of the Unix
    clock, or the altitude and azimuth typed in, as [float] reads them. *)
Theorem telescope_goes_where_asked
    (answers : list string) (ls : list label) (s : sys)
    (t : tid) (alt az : pyfloat) :
  ascii_choices answers = true ->
  session C answers ls = Some s ->
  In (t, EvPoint alt az) (trace (shared s)) ->
  t = Telescope /\ target_asked C answers alt az.
Proof.
  intros _ Hs Hin.
  destruct (setup_result C answers) as [p|e] eqn:E.
  - destruct (@session_input_kept answers p ls s E Hs) as (P & _ & _).
    rewrite forallb_forall in P. specialize (P _ Hin).
    unfold points_at in P. cbn in P.
    apply andb_prop in P. destruct P as [P Pz].
    apply andb_prop in P. destruct P as [Pt Pa].
    apply float_same_eq in Pa, Pz. subst alt az.
    split; [now destruct t | now apply setup_target].
  - exfalso. rewrite (@session_after_raise answers e ls s E Hs) in Hin. cbn in Hin.
    destruct (setup_events_ok C answers) as [P _].
    apply in_map_iff in Hin. destruct Hin as (ev & Hev & Hin).
    injection Hev as _ ->.
    apply in_app_or in Hin. destruct Hin as [Hin|Hin].
    + rewrite forallb_forall in P. specialize (P _ Hin). discriminate.
    + cbn in Hin. intuition discriminate.
Qed.

(** X16.  When the yes/no answers are ASCII, the questions of a session
    are those of the choice made, in the order of the source, each answered by the next line typed: the question
    about coordinates only when the Sun was declined, RA and Dec or altitude
    and azimuth accordingly, and the three acquisition parameters last; all
    of them when the input section succeeds, the first few when it raises.
    The ephemeris is consulted only for the Sun, and nothing is converted
    when altitude and azimuth are typed in. *)
Theorem questions_follow_the_choice
    (answers : list string) (ls : list label) (s : sys) :
  ascii_choices answers = true ->
  session C answers ls = Some s ->
  (exists k,
     asked (map snd (trace (shared s))) =
       firstn k (combine (questions (chose_sun answers) (chose_coords answers))
                         (typed answers)) /\
     match setup_result C answers with
     | Ok _ =>
         k = List.length
               (questions (chose_sun answers) (chose_coords answers))
     | Raise _ =>
         (k <= List.length
                 (questions (chose_sun answers) (chose_coords answers)))%nat
     end) /\
  forallb (fun te => fits_choice (chose_sun answers) (chose_coords answers)
                       (snd te))
          (trace (shared s)) = true.
Proof.
  intros _ Hs.
  destruct (setup_result C answers) as [p|e] eqn:E.
  - destruct (@session_input_kept answers p ls s E Hs) as (_ & F & A).
    split; [|exact F]. rewrite A.
    destruct (setup_questions C answers) as (k & Hk & Hl).
    rewrite E in Hl. exists k. now split.
  - rewrite (@session_after_raise answers e ls s E Hs). cbn.
    rewrite map_snd_tagged, forallb_tagged, asked_app, forallb_app.
    rewrite setup_fits_choice. cbn. rewrite app_nil_r.
    split; [|reflexivity].
    destruct (setup_questions C answers) as (k & Hk & Hl).
    rewrite E in Hl. exists k. now split.
Qed.

End InputKept.

Lemma input_error_ends_the_script_witness :
  (exists evs last,
     setup_events sample bad_ra_answers = evs ++ [last] /\
     explains sample "could not convert string to float"%string last) /\
  forall ls s,
    session sample bad_ra_answers ls = Some s ->
    trace (shared s) =
      map (pair Main)
        (setup_events sample bad_ra_answers ++
         [EvPrint (MsgInputError "could not convert string to float"%string);
          EvExit]) /\
    tel s = None /\ spec s = None /\ sdr s = None /\ saver s = None /\
    collected_data (shared s) = [] /\
    terminate_flag (shared s) = false /\
    forall l, step sample l s = None.
Proof.
  apply (@input_error_ends_the_script sample bad_ra_answers
           "could not convert string to float"%string);
    vm_compute; reflexivity.
Defined.

Lemma telescope_goes_where_asked_witness :
  let s := state_after sun_answers sample_pointing in
  In (Telescope, EvPoint (Fin 45) (Fin 180)) (trace (shared s)) /\
  Telescope = Telescope /\ target_asked sample sun_answers (Fin 45) (Fin 180).
Proof.
  assert (H : In (Telescope, EvPoint (Fin 45) (Fin 180))
                (trace (shared (state_after sun_answers sample_pointing)))).
  { vm_compute. repeat first [left; reflexivity | right]. }
  split; [exact H|].
  apply (@telescope_goes_where_asked sample sun_answers sample_pointing
           (state_after sun_answers sample_pointing) Telescope
           (Fin 45) (Fin 180)).
  - vm_compute. reflexivity.
  - vm_compute. reflexivity.
  - exact H.
Defined.

Lemma questions_follow_the_choice_witness :
  let s := state_after sample_answers sample_timeout in
  (exists k,
     asked (map snd (trace (shared s))) =
       firstn k (combine (questions (chose_sun sample_answers)
                                    (chose_coords sample_answers))
                         (typed sample_answers)) /\
     match setup_result sample sample_answers with
     | Ok _ =>
         k = List.length
               (questions (chose_sun sample_answers)
                          (chose_coords sample_answers))
     | Raise _ =>
         (k <= List.length
                 (questions (chose_sun sample_answers)
                            (chose_coords sample_answers)))%nat
     end) /\
  forallb (fun te => fits_choice (chose_sun sample_answers)
                       (chose_coords sample_answers) (snd te))
          (trace (shared s)) = true.
Proof.
  apply (@questions_follow_the_choice sample sample_answers sample_timeout
           (state_after sample_answers sample_timeout));
    vm_compute; reflexivity.
Defined.

(** ** The yes/no answers *)

Lemma lstrip_split (s : string) :
  exists l,
    s = (l ++ lstrip s)%string /\ all_chars is_space l = true.
Proof.
  induction s as [|c s IH]; cbn.
  - exists EmptyString. split; reflexivity.
  - destruct (is_space c) eqn:E.
    + destruct IH as (l & Hl & Sl). exists (String c l). cbn.
      rewrite E, Sl. split; [now rewrite <- Hl | reflexivity].
    + exists EmptyString. split; reflexivity.
Qed.

Lemma rstrip_split (s : string) :
  exists r,
    s = (rstrip s ++ r)%string /\ all_chars is_space r = true.
Proof.
  induction s as [|c s IH]; cbn.
  - exists EmptyString. split; reflexivity.
  - destruct IH as (r & Hr & Sr).
    destruct (rstrip s) as [|c' t] eqn:E.
    + destruct (is_space c) eqn:Ec.
      * exists (String c r). cbn in *. rewrite Ec, Sr.
        split; [now rewrite <- Hr | reflexivity].
      * exists r. cbn in *. split; [now rewrite <- Hr | assumption].
    + exists r. cbn in *. split; [now rewrite <- Hr | assumption].
Qed.

Lemma lstrip_spaces (l t : string) :
  all_chars is_space l = true -> lstrip (l ++ t) = lstrip t.
Proof.
  induction l as [|c l IH]; cbn; [reflexivity|].
  intro H. apply andb_prop in H. destruct H as [Hc Hl].
  rewrite Hc. now apply IH.
Qed.

Lemma rstrip_spaces (r : string) :
  all_chars is_space r = true -> rstrip r = EmptyString.
Proof.
  induction r as [|c r IH]; cbn; [reflexivity|].
  intro H. apply andb_prop in H. destruct H as [Hc Hr].
  now rewrite (IH Hr), Hc.
Qed.

Lemma lower_char_inv (c : ascii) :
  (lower_char c = "y"%char -> c = "y"%char \/ c = "Y"%char) /\
  (lower_char c = "e"%char -> c = "e"%char \/ c = "E"%char) /\
  (lower_char c = "s"%char -> c = "s"%char \/ c = "S"%char).
Proof.
  destruct c as [[] [] [] [] [] [] [] []]; vm_compute;
    repeat split; intro H; try discriminate H; auto.
Qed.

Lemma lower_yes (t : string) :
  lower t = "yes"%string <-> In t yes_words.
Proof.
  split.
  - destruct t as [|c1 [|c2 [|c3 [|c4 t]]]]; cbn [lower]; intro H;
      try discriminate H.
    injection H as H1 H2 H3.
    apply (proj1 (lower_char_inv c1)) in H1.
    apply (proj1 (proj2 (lower_char_inv c2))) in H2.
    apply (proj2 (proj2 (lower_char_inv c3))) in H3.
    destruct H1 as [-> | ->], H2 as [-> | ->], H3 as [-> | ->]; cbn; tauto.
  - intro H. cbn in H.
    repeat (destruct H as [<- | H]; [reflexivity|]). destruct H.
Qed.

Lemma strip_word (c1 c2 c3 : ascii) (r : string) :
  is_space c1 = false -> is_space c3 = false ->
  all_chars is_space r = true ->
  rstrip (lstrip (String c1 (String c2 (String c3 r)))) =
    String c1 (String c2 (String c3 EmptyString)).
Proof.
  intros H1 H3 Hr. cbn [lstrip]. rewrite H1. cbn [rstrip].
  rewrite rstrip_spaces by assumption. now rewrite H3.
Qed.

(** X17.  An ASCII answer to a yes/no question counts as yes exactly when
    it is the word yes, in any letter case, between any amount of white
    space; every other answer, [y] included, counts as no. *)
Theorem says_yes_iff (s : string) :
  all_chars is_ascii s = true ->
  (says_yes s = true <->
   exists l core r,
     s = (l ++ core ++ r)%string /\
     all_chars is_space l = true /\ all_chars is_space r = true /\
     In core yes_words).
Proof.
  intros _. unfold says_yes, strip. rewrite String.eqb_eq, lower_yes. split.
  - intro H.
    destruct (lstrip_split s) as (l & Hl & Sl).
    destruct (rstrip_split (lstrip s)) as (r & Hr & Sr).
    exists l, (rstrip (lstrip s)), r.
    rewrite <- Hr. auto.
  - intros (l & core & r & -> & Sl & Sr & H).
    rewrite lstrip_spaces by assumption.
    cbn in H.
    repeat (destruct H as [<- | H];
            [cbn [append]; rewrite strip_word by (reflexivity || assumption);
             cbn; tauto|]).
    destruct H.
Qed.

Lemma says_yes_iff_witness :
  all_chars is_ascii "  YeS "%string = true /\
  (says_yes "  YeS "%string = true <->
   exists l core r,
     "  YeS "%string = (l ++ core ++ r)%string /\
     all_chars is_space l = true /\ all_chars is_space r = true /\
     In core yes_words).
Proof.
  split; [reflexivity|].
  apply (@says_yes_iff "  YeS "%string). reflexivity.
Defined.

(** ** Waiting *)

Section Waiting.

Variable C : collaborators.

Lemma is_some {A : Type} (o : option A) : o <> None -> exists a, o = Some a.
Proof. destruct o as [a|]; [now exists a | congruence]. Qed.

(** X18.  While the process runs, a thread that has been started and has
    not returned can always take its next step, except at the entry of
    [with data_lock] while another thread holds the lock: the threads wait
    for nothing else, and not for one another. *)
Theorem threads_wait_only_for_the_lock
    (answers : list string) (ls : list label) (s : sys) (t : tid) :
  session C answers ls = Some s ->
  alive s = true ->
  started t s = true ->
  returned t s = false ->
  (exists i s', step C (Run t i) s = Some s') \/
  (at_lock t s = true /\
   exists t', t' <> t /\ data_lock (shared s) = Some t').
Proof.
  intros Hs Ha St Rt.
  assert (K : held_ok s) by (eapply session_held_ok; eassumption).
  destruct s as [w m tl sp sd sv]. unfold held_ok in K. cbn [shared] in K.
  destruct t; cbn in St, Rt.
  - left. exists Plain. apply is_some. unfold step. rewrite Ha. cbn.
    destruct m as [p [|[|[|k]]]| | | | | | |]; cbn; try discriminate.
    + now destruct (lt_float _ _).
  - destruct tl as [st|]; [|discriminate]. left.
    destruct (tel_at st) eqn:E; try discriminate;
      [exists Plain | exists Returns | exists Plain];
      apply is_some; unfold step; rewrite Ha; cbn;
      unfold point_telescope; rewrite E; try discriminate.
    now destruct (terminate_flag w).
  - destruct sp as [st|]; [|discriminate].
    destruct (sp_at st) eqn:E; try discriminate.
    + left. exists Plain. apply is_some. unfold step. rewrite Ha. cbn.
      unfold collect_spectrometer_data. rewrite E. discriminate.
    + left. exists Plain. apply is_some. unfold step. rewrite Ha. cbn.
      unfold collect_spectrometer_data. rewrite E.
      now destruct (_ && _).
    + left. exists (Raises ""%string). apply is_some. unfold step.
      rewrite Ha. cbn. unfold collect_spectrometer_data. rewrite E.
      discriminate.
    + destruct (data_lock w) as [t'|] eqn:D.
      * right. cbn. rewrite E. split; [reflexivity|].
        exists t'. split; [|exact D].
        intros ->. specialize (K _ eq_refl). cbn in K. rewrite E in K.
        discriminate.
      * left. exists Plain. apply is_some. unfold step. rewrite Ha. cbn.
        unfold collect_spectrometer_data. rewrite E, D. discriminate.
    + left. exists (Utc ""%string). apply is_some. unfold step.
      rewrite Ha. cbn. unfold collect_spectrometer_data. rewrite E.
      discriminate.
    + left. exists Plain. apply is_some. unfold step. rewrite Ha. cbn.
      unfold collect_spectrometer_data. rewrite E. discriminate.
  - destruct sd as [st|]; [|discriminate].
    destruct (sd_at st) eqn:E; try discriminate.
    + left. exists Returns. apply is_some. unfold step. rewrite Ha. cbn.
      unfold collect_sdr_data. rewrite E. discriminate.
    + left. exists Plain. apply is_some. unfold step. rewrite Ha. cbn.
      unfold collect_sdr_data. rewrite E. discriminate.
    + left. exists Plain. apply is_some. unfold step. rewrite Ha. cbn.
      unfold collect_sdr_data. rewrite E.
      now destruct (_ && _).
    + left. exists (Raises ""%string). apply is_some. unfold step.
      rewrite Ha. cbn. unfold collect_sdr_data. rewrite E. discriminate.
    + destruct (data_lock w) as [t'|] eqn:D.
      * right. cbn. rewrite E. split; [reflexivity|].
        exists t'. split; [|exact D].
        intros ->. specialize (K _ eq_refl). cbn in K. rewrite E in K.
        discriminate.
      * left. exists Plain. apply is_some. unfold step. rewrite Ha. cbn.
        unfold collect_sdr_data. rewrite E, D. discriminate.
    + left. exists (Utc ""%string). apply is_some. unfold step.
      rewrite Ha. cbn. unfold collect_sdr_data. rewrite E. discriminate.
    + left. exists Plain. apply is_some. unfold step. rewrite Ha. cbn.
      unfold collect_sdr_data. rewrite E. discriminate.
  - destruct sv as [[| | | |]|]; try discriminate.
    + left. exists Plain. apply is_some. unfold step. rewrite Ha. cbn.
      now destruct (terminate_flag w).
    + destruct (data_lock w) as [t'|] eqn:D.
      * right. cbn. split; [reflexivity|].
        exists t'. split; [|exact D].
        intros ->. specialize (K _ eq_refl). discriminate.
      * left. exists Plain. apply is_some. unfold step. rewrite Ha. cbn.
        rewrite D. discriminate.
    + left. exists (OpenFails ""%string). apply is_some. unfold step.
      rewrite Ha. cbn. discriminate.
    + left. exists Plain. apply is_some. unfold step. rewrite Ha. cbn.
      discriminate.
Qed.

End Waiting.

Lemma threads_wait_only_for_the_lock_witness :
  let s := state_after sample_answers sample_waiting in
  (exists i s', step sample (Run Spectrometer i) s = Some s') \/
  (at_lock Spectrometer s = true /\
   exists t', t' <> Spectrometer /\ data_lock (shared s) = Some t').
Proof.
  apply (@threads_wait_only_for_the_lock sample sample_answers sample_waiting
           (state_after sample_answers sample_waiting) Spectrometer);
    vm_compute; reflexivity.
Defined.

(** ** After the flag is set *)

Section WindingDown.

Variable C : collaborators.

Lemma effects_app (t : tid) (tr1 tr2 : list (tid * event)) :
  effects t (tr1 ++ tr2) = (effects t tr1 + effects t tr2)%nat.
Proof.
  unfold effects. now rewrite events_of_app, filter_app, length_app.
Qed.

Lemma effects_tagged (t t' : tid) (es : list event) :
  effects t (map (pair t') es) =
    if tid_eqb t t' then List.length (filter is_effect es) else 0%nat.
Proof.
  unfold effects. destruct (tid_eqb t t') eqn:E.
  - assert (t = t') as -> by (destruct t, t'; cbn in E; congruence).
    now rewrite events_of_self.
  - now rewrite events_of_other.
Qed.

Lemma winding_down_step (t : tid) (l : label) (s s' : sys) :
  winding_down s -> step C l s = Some s' ->
  winding_down s' /\
  (steps_left t s' + (if label_of t l then 1 else 0) <= steps_left t s)%nat /\
  (effects t (trace (shared s')) + effects_left t s' <=
   effects t (trace (shared s)) + effects_left t s)%nat.
Proof.
  intros (F & M) H. destruct s as [w m tl sp sd sv].
  unfold winding_down in *. cbn [shared mn] in *.
  step_cases H;
    cbn [shared mn trace emit set_lock set_file set_flag append_data advance
         with_main with_shared terminate_flag] in *;
    try (cbn in M; discriminate M); try congruence;
    try (destruct m; cbn in *; discriminate);
    try (rewrite F in *; rewrite ?andb_false_r in *; discriminate);
    (split; [split; [first [assumption | reflexivity]
                    | first [assumption | reflexivity]]|]);
    rewrite ?effects_app, ?effects_tagged;
    destruct t; cbn;
    repeat match goal with
      | E : sp_at ?st = _ |- _ => rewrite E in *
      | E : sd_at ?st = _ |- _ => rewrite E in *
      | E : tel_at ?st = _ |- _ => rewrite E in *
      end;
    cbn; try lia;
    repeat match goal with
      | |- context [match ?x with _ => _ end] => destruct x
      end;
    try lia; try discriminate.
Qed.

Lemma winding_down_run (t : tid) (ls : list label) (s s' : sys) :
  winding_down s -> run C ls s = Some s' ->
  (steps_of t ls + steps_left t s' <= steps_left t s)%nat /\
  (effects t (trace (shared s')) + effects_left t s' <=
   effects t (trace (shared s)) + effects_left t s)%nat.
Proof.
  revert s. induction ls as [|l ls IH]; cbn [run]; intros s W H.
  - injection H as <-. cbn. lia.
  - destruct (step C l s) as [s1|] eqn:E; [|discriminate].
    destruct (@winding_down_step t l s s1 W E) as (W1 & S1 & E1).
    destruct (IH s1 W1 H) as (S2 & E2).
    unfold steps_of in *. cbn [filter].
    destruct (label_of t l); cbn [List.length]; lia.
Qed.

Lemma steps_left_le (t : tid) (s : sys) :
  (steps_left t s <= 5)%nat /\ (effects_left t s <= 1)%nat.
Proof.
  destruct s as [w m tl sp sd sv]. destruct t; cbn;
    repeat match goal with
      | |- context [match ?x with _ => _ end] => destruct x
      end; lia.
Qed.

(** X19.  Once the flag is set, every thread stops within the iteration it
    is in: under any schedule it takes at most five more steps (the main
    thread two: it leaves its [try] and prints the completion line), and
    it points, appends or writes the file at most once more, and only if
    its iteration had already begun. *)
Theorem loops_end_within_one_iteration
    (answers : list string) (ls ls' : list label) (s s' : sys) (t : tid) :
  session C answers ls = Some s ->
  terminate_flag (shared s) = true ->
  run C ls' s = Some s' ->
  (steps_of t ls' <= steps_left t s)%nat /\
  (steps_left t s <= 5)%nat /\
  (effects t (trace (shared s')) <=
   effects t (trace (shared s)) + effects_left t s)%nat /\
  (effects_left t s <= 1)%nat.
Proof.
  intros Hs F H.
  assert (W : winding_down s).
  { split; [assumption|].
    destruct (@session_flag_ok C answers ls s Hs) as (_ & _ & _ & K).
    cbv zeta in K. destruct (mn s); cbn; intuition congruence. }
  destruct (@winding_down_run t ls' s s' W H) as (S1 & E1).
  destruct (steps_left_le t s) as (S2 & E2).
  repeat split; lia.
Qed.

End WindingDown.

Lemma loops_end_within_one_iteration_witness :
  let s := state_after sample_answers sample_flagged in
  let s' := state_after sample_answers (sample_flagged ++ sample_last_block) in
  (steps_of Spectrometer sample_last_block <= steps_left Spectrometer s)%nat /\
  (steps_left Spectrometer s <= 5)%nat /\
  (effects Spectrometer (trace (shared s')) <=
   effects Spectrometer (trace (shared s)) + effects_left Spectrometer s)%nat /\
  (effects_left Spectrometer s <= 1)%nat.
Proof.
  apply (@loops_end_within_one_iteration sample sample_answers sample_flagged
           sample_last_block
           (state_after sample_answers sample_flagged)
           (state_after sample_answers (sample_flagged ++ sample_last_block))
           Spectrometer);
    vm_compute; reflexivity.
Defined.
